(** * Persistent data model of the storefront API ([api/models.py])

    A shallow embedding of the ORM models (users, tokens, wallets, stores,
    products, invoices and the product/invoice join table), of token
    issuance, of invoice creation against the wallet RPC service and of the
    invoice update request that re-synchronises the join table.

    Coroutines are modelled in a state-and-exception monad over a [World]
    made of the database contents, the log of statements sent to the
    database and to the wallet service, the entropy source and the clock.
    An exception leaves the state as it is at the point of the raise: the
    source opens no transaction, so nothing is rolled back.

    The database is its tables' contents: an insert appends the row, a
    delete or update acts on the rows its condition selects, and deleting
    a referenced row triggers the referential action its foreign keys
    declare. For the invoices and the join table, which the code writes
    with arguments of its callers, the declared columns, their types,
    NOT NULL, the primary key and the foreign keys decide what the driver
    and the server refuse; a token row is always inserted. The ORM's
    generic operations, the wallet service, the entropy source and the
    clock are the environment of the code and are modelled as such. *)

From Stdlib Require Import ZArith List String Ascii DecimalString Lia.
From Stdlib.Strings Require Import Byte.
From stdpp Require Import base option list strings gmap.

Open Scope string_scope.
Open Scope Z_scope.
Open Scope list_scope.
Open Scope stdpp_scope.

(** ** Python values *)

(** The values that travel through [**kwargs]: [None], integers (also
    fixed-point numerics and timestamps, as scaled integers), strings and
    lists of integer ids (the type of the [products] field). *)
Inductive value : Type :=
| VNone
| VNum (z : Z)
| VStr (s : string)
| VList (ids : list Z).

(** Python truthiness, as tested by [if x:] and [if not x:]. *)
Definition truthy (v : value) : bool :=
  match v with
  | VNone => false
  | VNum z => negb (z =? 0)
  | VStr s => negb (String.eqb s "")
  | VList ids => match ids with [] => false | _ :: _ => true end
  end.

(** [str(z)] for an integer. *)
Definition str_int (z : Z) : string := NilZero.string_of_int (Z.to_int z).

Fixpoint join_ids (ids : list Z) : string :=
  match ids with
  | [] => ""
  | [z] => str_int z
  | z :: rest => str_int z +:+ ", " +:+ join_ids rest
  end.

(** What an f-string substitutes for [{v}]. *)
Definition py_str (v : value) : string :=
  match v with
  | VNone => "None"
  | VNum z => str_int z
  | VStr s => s
  | VList ids => "[" +:+ join_ids ids +:+ "]"
  end.

(** A nullable integer column read as a Python value. *)
Definition to_value (o : option Z) : value :=
  match o with
  | None => VNone
  | Some z => VNum z
  end.

(** ** Exceptions *)

Inductive exn : Type :=
| HTTPException (status_code : Z) (detail : string)
| KeyError (key : string)
| TypeError (msg : string)
| AttributeError (name : string)
| DataError (msg : string)
| NoSuchRowError
| OtherError (name : string) (msg : string).

(** ** Rows of the tables *)

(** Numeric(16, 8) columns are integers in units of 10^-8; DateTime columns
    are integer timestamps; a nullable column is an [option]. *)

Record User : Type := mkUser {
  user_id : Z;
  user_username : option string;
  user_email : option string;
  user_hashed_password : option string;
  user_is_superuser : bool }.

Record Token : Type := mkToken {
  token_key : string;
  token_user_id : option Z;
  token_created : option Z }.

Record Wallet : Type := mkWallet {
  wallet_id : Z;
  wallet_name : option string;
  wallet_xpub : option string;
  wallet_balance : option Z;
  wallet_user_id : option Z }.

Record Store : Type := mkStore {
  store_id : Z;
  store_name : option string;
  store_domain : option string;
  store_template : option string;
  store_email : option string;
  store_wallet_id : option Z;
  store_email_host : option string;
  store_email_password : option string;
  store_email_port : option Z;
  store_email_use_ssl : option bool;
  store_email_user : option string }.

Record Product : Type := mkProduct {
  product_id : Z;
  product_amount : Z;
  product_quantity : Z;
  product_title : string;
  product_date : Z;
  product_description : option string;
  product_image : option string;
  product_store_id : option Z;
  product_status : string }.

Record ProductxInvoice : Type := mkProductxInvoice {
  pxi_product_id : option Z;
  pxi_invoice_id : option Z }.

(** A persisted invoice: the primary key and the column values the row was
    written with. *)
Record InvoiceRow : Type := mkInvoiceRow {
  row_id : Z;
  row_values : gmap string value }.

(** An in-memory [Invoice] instance: its column values ([__values__]) and
    the [products] attribute, which is no column and is unset until an
    update request assigns it. *)
Record Invoice : Type := mkInvoice {
  invoice_id : Z;
  invoice_values : gmap string value;
  invoice_products : option value }.

(** ** Schema: foreign keys and their referential actions *)

Inductive ondelete : Type := CASCADE | SET_NULL.

Record ForeignKey : Type := mkForeignKey {
  fk_target : string;
  fk_ondelete : ondelete;
  fk_deferred : bool }.

Definition Token_user_id_fk : ForeignKey :=
  mkForeignKey "users.id" CASCADE false.
Definition Wallet_user_id_fk : ForeignKey :=
  mkForeignKey "users.id" SET_NULL false.
Definition Store_wallet_id_fk : ForeignKey :=
  mkForeignKey "wallets.id" SET_NULL true.
Definition Product_store_id_fk : ForeignKey :=
  mkForeignKey "stores.id" SET_NULL true.
Definition ProductxInvoice_product_id_fk : ForeignKey :=
  mkForeignKey "products.id" SET_NULL false.
Definition ProductxInvoice_invoice_id_fk : ForeignKey :=
  mkForeignKey "invoices.id" SET_NULL false.

(** ** The database and the world *)

Record Database : Type := mkDatabase {
  users : gmap Z User;
  tokens : list Token;
  wallets : gmap Z Wallet;
  stores : gmap Z Store;
  products : gmap Z Product;
  invoices : list InvoiceRow;
  invoices_id_seq : Z;
  productsxinvoices : list ProductxInvoice }.

(** Statements that change the database, and calls to the wallet service,
    in the order they are issued. *)
Inductive event : Type :=
| InsertToken (t : Token)
| InsertInvoice (r : InvoiceRow)
| UpdateInvoice (id : Z) (vals : gmap string value)
| DeleteJoinRows (invoice : Z)
| InsertJoinRow (r : ProductxInvoice)
| RpcAddRequest (xpub : option string) (amount : value)
                (description : option string).

Record World : Type := mkWorld {
  db : Database;
  trace : list event;
  entropy : nat -> byte;
  entropy_pos : nat;
  clock : Z }.

Definition set_db (d : Database) (w : World) : World :=
  mkWorld d (trace w) (entropy w) (entropy_pos w) (clock w).

Definition log (e : event) (w : World) : World :=
  mkWorld (db w) (trace w ++ [e]) (entropy w) (entropy_pos w) (clock w).

Definition set_tokens (l : list Token) (d : Database) : Database :=
  mkDatabase (users d) l (wallets d) (stores d) (products d)
             (invoices d) (invoices_id_seq d) (productsxinvoices d).

Definition set_invoices (l : list InvoiceRow) (seq : Z) (d : Database)
  : Database :=
  mkDatabase (users d) (tokens d) (wallets d) (stores d) (products d)
             l seq (productsxinvoices d).

Definition set_productsxinvoices (l : list ProductxInvoice) (d : Database)
  : Database :=
  mkDatabase (users d) (tokens d) (wallets d) (stores d) (products d)
             (invoices d) (invoices_id_seq d) l.

(** ** The monad of coroutines *)

Inductive Result (A : Type) : Type :=
| Ok (a : A)
| Raise (e : exn).
Arguments Ok {A} a.
Arguments Raise {A} e.

Definition M (A : Type) : Type := World -> Result A * World.

Definition ret {A : Type} (a : A) : M A := fun w => (Ok a, w).

Definition raise {A : Type} (e : exn) : M A := fun w => (Raise e, w).

Definition bind {A B : Type} (m : M A) (k : A -> M B) : M B :=
  fun w =>
    match m w with
    | (Ok a, w') => k a w'
    | (Raise e, w') => (Raise e, w')
    end.

Notation "'let*' x ':=' m 'in' k" := (bind m (fun x => k))
  (at level 10, x name, m at level 100, k at level 200).

(** A [for] loop whose body is awaited for each element in turn. *)
Fixpoint for_each {A : Type} (l : list A) (body : A -> M unit) : M unit :=
  match l with
  | [] => ret tt
  | x :: rest => let* _ := body x in for_each rest body
  end.

(** [d[key]] *)
Definition getitem (d : gmap string value) (key : string) : M value :=
  match d !! key with
  | Some v => ret v
  | None => raise (KeyError key)
  end.

(** [v[0]] *)
Definition subscript0 (v : value) : M value :=
  match v with
  | VList (z :: _) => ret (VNum z)
  | VList [] => raise (OtherError "IndexError" "list index out of range")
  | VStr (String c _) => ret (VStr (String c EmptyString))
  | VStr EmptyString =>
      raise (OtherError "IndexError" "string index out of range")
  | VNum _ => raise (TypeError "'int' object is not subscriptable")
  | VNone => raise (TypeError "'NoneType' object is not subscriptable")
  end.

(** [iter(v)], as a [for] statement needs it. *)
Definition py_iter (v : value) : M (list value) :=
  match v with
  | VList ids => ret (map VNum ids)
  | VStr s => ret (map (fun c => VStr (String c EmptyString))
                       (list_ascii_of_string s))
  | VNum _ => raise (TypeError "'int' object is not iterable")
  | VNone => raise (TypeError "'NoneType' object is not iterable")
  end.

(** ** Entropy and time *)

(** [os.urandom(n)]: the next [n] bytes of the entropy source. *)
Definition os_urandom (n : nat) : M (list byte) :=
  fun w =>
    (Ok (map (entropy w) (seq (entropy_pos w) n)),
     mkWorld (db w) (trace w) (entropy w) (entropy_pos w + n)%nat (clock w)).

Definition hex_digit (n : N) : ascii :=
  match n with
  | 0%N => "0" | 1%N => "1" | 2%N => "2" | 3%N => "3"
  | 4%N => "4" | 5%N => "5" | 6%N => "6" | 7%N => "7"
  | 8%N => "8" | 9%N => "9" | 10%N => "a" | 11%N => "b"
  | 12%N => "c" | 13%N => "d" | 14%N => "e" | _ => "f"
  end%char.

(** [bytes.hex()]: two lowercase hexadecimal digits per byte. *)
Fixpoint hex (bs : list byte) : string :=
  match bs with
  | [] => ""
  | b :: rest =>
      String (hex_digit (N.div (Byte.to_N b) 16))
        (String (hex_digit (N.modulo (Byte.to_N b) 16)) (hex rest))
  end.

(** Modelled from the spec: [utils.now], which is not among the sources;
    the spec has token issuance stamp the current UTC timestamp, so the
    call reads the clock. *)
Definition utils_now : M Z := fun w => (Ok (clock w), w).

(** ** Generic model operations of the ORM *)

(** An Integer column holds 32-bit integers. *)
Definition is_int32 (z : Z) : bool :=
  (-2147483648 <=? z) && (z <=? 2147483647).

(** What a lookup by primary key answers. A NULL identifier matches no
    row. The key column is an Integer: the driver refuses an integer
    outside the 32-bit range, and anything that is no integer, with
    [DataError] before any query is sent. The rows of a table have keys
    within the range, so a row that is there is found; an identifier
    without a row is refused when it is outside the range and finds
    nothing otherwise. *)
Definition find_row {R : Type} (rows : gmap Z R) (ident : value)
  : Result (option R) :=
  match ident with
  | VNum z =>
      match rows !! z with
      | Some r => Ok (Some r)
      | None =>
          if is_int32 z then Ok None
          else Raise (DataError "invalid input for query argument")
      end
  | VNone => Ok None
  | VStr _ | VList _ => Raise (DataError "invalid input for query argument")
  end.

(** [Model.get(ident)]: the row with that primary key or [None]. *)
Definition Model_get {R : Type} (table : Database -> gmap Z R)
    (ident : value) : M (option R) :=
  fun w => (find_row (table (db w)) ident, w).

(** [Product.get], [Store.get] and [Wallet.get] *)
Definition Product_get : value -> M (option Product) := Model_get products.
Definition Store_get : value -> M (option Store) := Model_get stores.
Definition Wallet_get : value -> M (option Wallet) := Model_get wallets.

(** ** The columns of the invoices table *)

(** Column types: Integer, Numeric(precision, scale), String(length) and
    DateTime. *)
Inductive coltype : Type :=
| TInteger
| TNumeric (precision scale : nat)
| TString (n : nat)
| TDateTime.

Record Column : Type := mkColumn {
  column_name : string;
  column_type : coltype;
  column_nullable : bool }.

(** The columns of [Invoice], in the order of their declaration; [id] is
    the primary key, filled from the table's sequence when no id is
    given, and the other five are declared [nullable=False]. *)
Definition Invoice_table : list Column :=
  [mkColumn "id" TInteger false;
   mkColumn "amount" (TNumeric 16 8) false;
   mkColumn "status" (TString 1000) false;
   mkColumn "date" TDateTime false;
   mkColumn "bitcoin_address" (TString 255) false;
   mkColumn "bitcoin_url" (TString 255) false].

Definition is_column (key : string) : bool :=
  existsb (fun c => String.eqb (column_name c) key) Invoice_table.

(** The first of the given fields that is no column. Python meets the
    fields in the order the keyword arguments were written; a finite map
    keeps no such order, and the fields are met in the order of the map.
    With one field only that is no column the two orders agree. *)
Definition first_non_column (fields : gmap string value) : option string :=
  fst <$> List.find (fun kv => negb (is_column (fst kv))) (map_to_list fields).

(** Whether the driver can send [v] for a column of type [ty]: [None] for
    any, an integer for a number or a timestamp (within 32 bits for an
    Integer), a string for a String. *)
Definition encodable (ty : coltype) (v : value) : bool :=
  match v, ty with
  | VNone, _ => true
  | VNum z, TInteger => is_int32 z
  | VNum _, TNumeric _ _ => true
  | VNum _, TDateTime => true
  | VStr _, TString _ => true
  | _, _ => false
  end.

Definition NumericValueOutOfRangeError (column : string) : exn :=
  OtherError "NumericValueOutOfRangeError" column.
Definition StringDataRightTruncationError (column : string) : exn :=
  OtherError "StringDataRightTruncationError" column.
Definition NotNullViolationError (column : string) : exn :=
  OtherError "NotNullViolationError" column.
Definition UniqueViolationError (table : string) : exn :=
  OtherError "UniqueViolationError" table.
Definition ForeignKeyViolationError (table : string) : exn :=
  OtherError "ForeignKeyViolationError" table.
Definition PostgresSyntaxError (table : string) : exn :=
  OtherError "PostgresSyntaxError" table.

(** What the server refuses when it brings [v] to the type of column [c]:
    an integer beyond 32 bits, a numeric with more digits than the
    precision (a Numeric of scale 8 being an integer in units of 10^-8),
    a string longer than the column. *)
Definition coercion_error (c : Column) (v : value) : option exn :=
  match column_type c, v with
  | TInteger, VNum z =>
      if is_int32 z then None
      else Some (NumericValueOutOfRangeError (column_name c))
  | TNumeric p _, VNum z =>
      if Z.abs z <? 10 ^ Z.of_nat p then None
      else Some (NumericValueOutOfRangeError (column_name c))
  | TString n, VStr s =>
      if (String.length s <=? n)%nat then None
      else Some (StringDataRightTruncationError (column_name c))
  | _, _ => None
  end.

Definition not_null_error (c : Column) (v : value) : option exn :=
  match v with
  | VNone =>
      if column_nullable c then None
      else Some (NotNullViolationError (column_name c))
  | _ => None
  end.

(** The first error a check finds, going through a list in order. *)
Fixpoint first_error {A : Type} (check : A -> option exn) (l : list A)
  : option exn :=
  match l with
  | [] => None
  | x :: rest =>
      match check x with
      | Some e => Some e
      | None => first_error check rest
      end
  end.

(** Whether the invoices table has a row with primary key [id]. *)
Definition invoice_exists (id : Z) (d : Database) : bool :=
  existsb (fun r => row_id r =? id) (invoices d).

(** ** Token *)

(** [super().create(user_id=..., key=..., created=...)] *)
Definition Token_insert (t : Token) : M Token :=
  fun w =>
    (Ok t, log (InsertToken t)
             (set_db (set_tokens (tokens (db w) ++ [t]) (db w)) w)).

(** [Token.create(cls, user)]:
    [user_id = user.id; key = os.urandom(20).hex(); created = utils.now()]
    and the insert of the row with these three values. *)
Definition Token_create (user : User) : M Token :=
  let user_id := user_id user in
  let* rnd := os_urandom 20 in
  let key := hex rnd in
  let* created := utils_now in
  Token_insert (mkToken key (Some user_id) (Some created)).

(** ** The wallet RPC service *)

(** Process-wide configuration ([settings.RPC_URL] and the like). *)
Record Settings : Type := mkSettings {
  RPC_URL : string;
  RPC_USER : string;
  RPC_PASS : string }.

(** The environment of invoice creation: the configuration and the wallet
    service's "add payment request" operation, which answers a request
    (endpoint and credentials, xpub, amount, description) with a response
    dictionary or fails with an exception of its own. *)
Record Env : Type := mkEnv {
  settings : Settings;
  addrequest :
    Settings -> option string -> value -> option string ->
    Result (gmap string value) }.

(** [async with BTC(RPC_URL, rpc_user=..., rpc_pass=..., xpub=xpub) as btc:
       await btc.addrequest(amount, description=description)] *)
Definition BTC_addrequest (env : Env) (xpub : option string) (amount : value)
    (description : option string) : M (gmap string value) :=
  fun w =>
    (addrequest env (settings env) xpub amount description,
     log (RpcAddRequest xpub amount description) w).

(** ** ProductxInvoice *)

(** Whether a nullable foreign-key column holds [id]; NULL equals nothing. *)
Definition refers (o : option Z) (id : Z) : bool :=
  match o with
  | Some z => z =? id
  | None => false
  end.

(** [ProductxInvoice.delete.where(ProductxInvoice.invoice_id == id)
       .gino.status()]; the driver refuses an id beyond 32 bits. *)
Definition ProductxInvoice_delete_where_invoice_id (id : Z) : M unit :=
  fun w =>
    let rows := List.filter (fun r => negb (refers (pxi_invoice_id r) id))
                            (productsxinvoices (db w)) in
    if is_int32 id then
      (Ok tt, log (DeleteJoinRows id)
                (set_db (set_productsxinvoices rows (db w)) w))
    else (Raise (DataError "invalid input for query argument"), w).

(** Why a join row of invoice [id] and product [i] is not inserted: the
    driver refuses what is no 32-bit integer or NULL, and the server a
    product id or an invoice id without a row (the two foreign keys). As
    for [Model.get], an id that has a row is within the range. *)
Definition join_row_error (d : Database) (id : Z) (i : value) : option exn :=
  let invoice_unknown := negb (invoice_exists id d) in
  let product_unknown :=
    match i with
    | VNum z => match products d !! z with Some _ => false | None => true end
    | _ => false
    end in
  let product_out_of_range :=
    match i with
    | VNum z => product_unknown && negb (is_int32 z)
    | VNone => false
    | VStr _ | VList _ => true
    end in
  if product_out_of_range || (invoice_unknown && negb (is_int32 id))
  then Some (DataError "invalid input for query argument")
  else if product_unknown || invoice_unknown
  then Some (ForeignKeyViolationError "productsxinvoices")
  else None.

(** [ProductxInvoice.create(invoice_id=id, product_id=i)] *)
Definition ProductxInvoice_create (id : Z) (i : value) : M unit :=
  fun w =>
    let r := mkProductxInvoice
               (match i with VNum z => Some z | _ => None end) (Some id) in
    match join_row_error (db w) id i with
    | Some e => (Raise e, w)
    | None =>
        (Ok tt, log (InsertJoinRow r)
                  (set_db (set_productsxinvoices
                             (productsxinvoices (db w) ++ [r]) (db w)) w))
    end.

(** ** The update request *)

(** The ORM's generic update request, bound to an instance: the pending
    column values, the primary key the instance had when the request was
    made, by which [apply] finds the row, and the [products] attribute
    that [MyUpdateRequest] adds ([None] while the attribute is unset). *)
Record UpdateRequest : Type := mkUpdateRequest {
  _instance : Invoice;
  _values : gmap string value;
  _locator : Z;
  self_products : option value }.

(** [UpdateRequest.update] with keyword arguments [values]: each field is
    set on the instance in memory and, read back from the column values
    of the instance, recorded as a pending column write; the reading
    raises [KeyError] for a field that is no column, and the call then
    returns no request (the attributes it set on the instance before are
    not kept here: nothing reads them). A new [id] is the id of the
    instance from then on (the model keeps integer ids only). *)
Definition UpdateRequest_update (self : UpdateRequest)
    (values : gmap string value) : Result UpdateRequest :=
  match first_non_column values with
  | Some key => Raise (KeyError key)
  | None =>
      let inst := _instance self in
      let id := match values !! "id" with
                | Some (VNum z) => z
                | _ => invoice_id inst
                end in
      Ok (mkUpdateRequest
            (mkInvoice id (values ∪ invoice_values inst)
                       (invoice_products inst))
            (values ∪ _values self)
            (_locator self)
            (self_products self))
  end.

(** What the driver refuses of an UPDATE: a value it cannot send for its
    column, a key beyond 32 bits. *)
Definition update_client_error (loc : Z) (vals : gmap string value)
  : option exn :=
  match first_non_column vals with
  | Some key => Some (KeyError key)
  | None =>
      if is_int32 loc &&
         forallb (fun c => encodable (column_type c)
                             (default VNone (vals !! column_name c)))
                 Invoice_table
      then None
      else Some (DataError "invalid input for query argument")
  end.

(** What the server refuses of an UPDATE of the row [loc]: a value beyond
    its column's type, NULL for a NOT NULL column, a new id that another
    row has, a new id while join rows refer to the old one. *)
Definition update_server_error (loc : Z) (vals : gmap string value)
    (d : Database) : option exn :=
  let assigned c := default VNone (vals !! column_name c) in
  let given c := match vals !! column_name c with
                 | Some _ => true | None => false end in
  match first_error (fun c => coercion_error c (assigned c)) Invoice_table
  with
  | Some e => Some e
  | None =>
  match first_error
          (fun c => if given c then not_null_error c (assigned c) else None)
          Invoice_table
  with
  | Some e => Some e
  | None =>
      match vals !! "id" with
      | Some (VNum z) =>
          if z =? loc then None
          else if invoice_exists z d
          then Some (UniqueViolationError "invoices")
          else if existsb (fun r => refers (pxi_invoice_id r) loc)
                          (productsxinvoices d)
          then Some (ForeignKeyViolationError "productsxinvoices")
          else None
      | _ => None
      end
  end end.

(** The id of the row [loc] after an UPDATE with [vals]. *)
Definition updated_id (loc : Z) (vals : gmap string value) : Z :=
  match vals !! "id" with
  | Some (VNum z) => z
  | _ => loc
  end.

(** [UpdateRequest.apply()]: one UPDATE of the pending column values on
    the row the request was made for. An UPDATE that sets no column is a
    syntax error; [NoSuchRowError] when the row is not there. *)
Definition UpdateRequest_apply (self : UpdateRequest) : M UpdateRequest :=
  fun w =>
    let loc := _locator self in
    let vals := _values self in
    let d := db w in
    match map_to_list vals with
    | [] => (Raise (PostgresSyntaxError "invoices"), w)
    | _ :: _ =>
    match update_client_error loc vals with
    | Some e => (Raise e, w)
    | None =>
    if negb (invoice_exists loc d)
    then (Raise NoSuchRowError, log (UpdateInvoice loc vals) w)
    else
    match update_server_error loc vals d with
    | Some e => (Raise e, w)
    | None =>
        let rows :=
          map (fun r => if row_id r =? loc
                        then mkInvoiceRow (updated_id loc vals)
                                          (vals ∪ row_values r)
                        else r)
              (invoices d) in
        (Ok self,
         log (UpdateInvoice loc vals)
           (set_db (set_invoices rows (invoices_id_seq d) d) w))
    end end end.

(** [MyUpdateRequest.update(self, **kwargs)]:
    [self.products = kwargs.get("products")]; the entry is popped from
    [kwargs] when [self.products] is truthy; [super().update] gets what is
    left of [kwargs]. *)
Definition MyUpdateRequest_update (self : UpdateRequest)
    (kwargs : gmap string value) : Result UpdateRequest :=
  let products := default VNone (kwargs !! "products") in
  let self := mkUpdateRequest (_instance self) (_values self)
                              (_locator self) (Some products) in
  let kwargs := if truthy products then delete "products" kwargs
                else kwargs in
  UpdateRequest_update self kwargs.

(** [MyUpdateRequest.apply(self)]: the join rows whose invoice id is
    [self._instance.id] are deleted; [for i in self.products] one join row
    is created with that invoice id and product id [i];
    [self._instance.products = self.products]; then [super().apply()]. *)
Definition MyUpdateRequest_apply (self : UpdateRequest) : M UpdateRequest :=
  let id := invoice_id (_instance self) in
  let* _ := ProductxInvoice_delete_where_invoice_id id in
  let* products :=
    match self_products self with
    | Some v => ret v
    | None => raise (AttributeError "products")
    end in
  let* items := py_iter products in
  let* _ := for_each items (fun i => ProductxInvoice_create id i) in
  let inst := _instance self in
  let self := mkUpdateRequest
                (mkInvoice (invoice_id inst) (invoice_values inst)
                           (Some products))
                (_values self) (_locator self) (self_products self) in
  UpdateRequest_apply self.

(** [Invoice.update] with keyword arguments [kwargs]: a fresh request of
    the class named by [_update_request_cls], bound to the instance, and
    its [update] with these arguments. *)
Definition Invoice_update (inst : Invoice) (kwargs : gmap string value)
  : Result UpdateRequest :=
  MyUpdateRequest_update (mkUpdateRequest inst ∅ (invoice_id inst) None)
    kwargs.

(** [await invoice.update(...).apply()], as a caller writes it: nothing
    is applied when [update] raises. *)
Definition Invoice_update_apply (inst : Invoice)
    (kwargs : gmap string value) : M UpdateRequest :=
  match Invoice_update inst kwargs with
  | Ok request => MyUpdateRequest_apply request
  | Raise e => raise e
  end.

(** ** Invoice *)

(** What stops an insert before anything is sent: a field that is no
    column ([KeyError], when the instance is made from the fields), a
    value the driver cannot send for its column ([DataError]). *)
Definition Invoice_client_error (fields : gmap string value) : option exn :=
  match first_non_column fields with
  | Some key => Some (KeyError key)
  | None =>
      if forallb (fun c => encodable (column_type c)
                             (default VNone (fields !! column_name c)))
                 Invoice_table
      then None
      else Some (DataError "invalid input for query argument")
  end.

(** Whether the id of the new row comes from the sequence. *)
Definition id_defaulted (fields : gmap string value) : bool :=
  match fields !! "id" with
  | None => true
  | Some _ => false
  end.

(** The id of the new row: the one given, or the next of the sequence. *)
Definition Invoice_new_id (fields : gmap string value) (d : Database) : Z :=
  match fields !! "id" with
  | Some (VNum z) => z
  | _ => invoices_id_seq d + 1
  end.

(** The value of column [c] in the new row. *)
Definition Invoice_row_value (fields : gmap string value) (d : Database)
    (c : Column) : value :=
  if String.eqb (column_name c) "id" && id_defaulted fields
  then VNum (invoices_id_seq d + 1)
  else default VNone (fields !! column_name c).

(** What the server refuses of the new row: a value beyond its column's
    type, NULL in a NOT NULL column, an id that a row has already. *)
Definition Invoice_server_error (fields : gmap string value) (d : Database)
  : option exn :=
  match first_error
          (fun c => coercion_error c (Invoice_row_value fields d c))
          Invoice_table
  with
  | Some e => Some e
  | None =>
  match first_error
          (fun c => not_null_error c (Invoice_row_value fields d c))
          Invoice_table
  with
  | Some e => Some e
  | None =>
      if invoice_exists (Invoice_new_id fields d) d
      then Some (UniqueViolationError "invoices")
      else None
  end end.

(** [super().create] with keyword arguments [kwargs]: the instance is
    made from the fields and its row inserted, under the given id or the
    next id of the table's sequence. The sequence moves on also when the
    server refuses the row. *)
Definition Invoice_insert (kwargs : gmap string value) : M Invoice :=
  fun w =>
    let d := db w in
    match Invoice_client_error kwargs with
    | Some e => (Raise e, w)
    | None =>
        let id := Invoice_new_id kwargs d in
        let seq := if id_defaulted kwargs then invoices_id_seq d + 1
                   else invoices_id_seq d in
        let r := mkInvoiceRow id kwargs in
        match Invoice_server_error kwargs d with
        | Some e => (Raise e, set_db (set_invoices (invoices d) seq d) w)
        | None =>
            (Ok (mkInvoice id kwargs None),
             log (InsertInvoice r)
               (set_db (set_invoices (invoices d ++ [r]) seq d) w))
        end
    end.

(** [Invoice.create(cls, **kwargs)]: the four checks on [products], the
    first product, its store and the store's wallet, each raising
    [HTTPException(422, ...)]; the payment request for [kwargs["amount"]]
    with the product's description against the wallet's xpub;
    [bitcoin_address] and [bitcoin_url] set from the answer; [products]
    popped; the insert of the row; the invoice and the xpub returned. *)
Definition Invoice_create (env : Env) (kwargs : gmap string value)
  : M (Invoice * option string) :=
  let* products := getitem kwargs "products" in
  if negb (truthy products) then
    raise (HTTPException 422 "Products list empty")
  else
  let* first := subscript0 products in
  let* product := Product_get first in
  match product with
  | None =>
      raise (HTTPException 422
               ("Product " +:+ py_str first +:+ " doesn't exist!"))
  | Some product =>
  let* store := Store_get (to_value (product_store_id product)) in
  match store with
  | None =>
      raise (HTTPException 422
               ("Store " +:+ py_str (to_value (product_store_id product))
                +:+ " doesn't exist!"))
  | Some store =>
  let* wallet := Wallet_get (to_value (store_wallet_id store)) in
  match wallet with
  | None => raise (HTTPException 422 "No wallet linked")
  | Some wallet =>
  let xpub := wallet_xpub wallet in
  let* amount := getitem kwargs "amount" in
  let* data_got :=
    BTC_addrequest env xpub amount (product_description product) in
  let* address := getitem data_got "address" in
  let kwargs := <["bitcoin_address" := address]> kwargs in
  let* uri := getitem data_got "URI" in
  let kwargs := <["bitcoin_url" := uri]> kwargs in
  let kwargs := delete "products" kwargs in
  let* invoice := Invoice_insert kwargs in
  ret (invoice, xpub)
  end end end.

(** ** Deleting rows under the declared referential actions *)

(** What the foreign key [fk] makes of a referencing row when the row with
    primary key [id] is deleted from the referenced table: [None] when the
    row goes too. *)
Definition referential_action {R : Type} (fk : ForeignKey)
    (ref : R -> option Z) (set_null : R -> R) (id : Z) (r : R) : option R :=
  if refers (ref r) id then
    match fk_ondelete fk with
    | CASCADE => None
    | SET_NULL => Some (set_null r)
    end
  else Some r.

Definition User_delete (id : Z) (d : Database) : Database :=
  mkDatabase
    (delete id (users d))
    (omap (referential_action Token_user_id_fk token_user_id
             (fun t => mkToken (token_key t) None (token_created t)) id)
          (tokens d))
    (omap (referential_action Wallet_user_id_fk wallet_user_id
             (fun x => mkWallet (wallet_id x) (wallet_name x) (wallet_xpub x)
                                (wallet_balance x) None) id)
          (wallets d))
    (stores d) (products d) (invoices d) (invoices_id_seq d)
    (productsxinvoices d).

Definition Product_delete (id : Z) (d : Database) : Database :=
  mkDatabase
    (users d) (tokens d) (wallets d) (stores d)
    (delete id (products d))
    (invoices d) (invoices_id_seq d)
    (omap (referential_action ProductxInvoice_product_id_fk pxi_product_id
             (fun r => mkProductxInvoice None (pxi_invoice_id r)) id)
          (productsxinvoices d)).

Definition Invoice_delete (id : Z) (d : Database) : Database :=
  mkDatabase
    (users d) (tokens d) (wallets d) (stores d) (products d)
    (List.filter (fun r => negb (row_id r =? id)) (invoices d))
    (invoices_id_seq d)
    (omap (referential_action ProductxInvoice_invoice_id_fk pxi_invoice_id
             (fun r => mkProductxInvoice (pxi_product_id r) None) id)
          (productsxinvoices d)).

Definition Wallet_delete (id : Z) (d : Database) : Database :=
  mkDatabase
    (users d) (tokens d)
    (delete id (wallets d))
    (omap (referential_action Store_wallet_id_fk store_wallet_id
             (fun s => mkStore (store_id s) (store_name s) (store_domain s)
                               (store_template s) (store_email s) None
                               (store_email_host s) (store_email_password s)
                               (store_email_port s) (store_email_use_ssl s)
                               (store_email_user s)) id)
          (stores d))
    (products d) (invoices d) (invoices_id_seq d) (productsxinvoices d).

Definition Store_delete (id : Z) (d : Database) : Database :=
  mkDatabase
    (users d) (tokens d) (wallets d)
    (delete id (stores d))
    (omap (referential_action Product_store_id_fk product_store_id
             (fun p => mkProduct (product_id p) (product_amount p)
                                 (product_quantity p) (product_title p)
                                 (product_date p) (product_description p)
                                 (product_image p) None (product_status p))
             id)
          (products d))
    (invoices d) (invoices_id_seq d) (productsxinvoices d).

(** * Vocabulary of the statements *)


(** The row a nullable reference column points to, if any. *)
Definition deref {R : Type} (table : gmap Z R) (ref : option Z) : option R :=
  match ref with
  | Some id => table !! id
  | None => None
  end.

(** The world after the payment request was sent. *)
Definition after_request (xpub : option string) (amount : value)
    (description : option string) (w : World) : World :=
  log (RpcAddRequest xpub amount description) w.

(** The world after the invoice row was inserted. *)
Definition after_insert (cols : gmap string value) (w : World) : World :=
  snd (Invoice_insert cols w).

(** The column values an invoice is inserted with. *)
Definition invoice_columns (kwargs : gmap string value)
    (address uri : value) : gmap string value :=
  delete "products"
    (<["bitcoin_url" := uri]> (<["bitcoin_address" := address]> kwargs)).

(** Why the insert of an invoice with these fields is refused, by the
    driver or by the server, if it is. *)
Definition Invoice_insert_error (fields : gmap string value) (d : Database)
  : option exn :=
  match Invoice_client_error fields with
  | Some e => Some e
  | None => Invoice_server_error fields d
  end.

(** The outcome when the payment request has been prepared. *)
Definition request_outcome (env : Env) (kwargs : gmap string value)
    (w : World) (product : Product) (wallet : Wallet) (amount : value)
  : Result (Invoice * option string) * World :=
  let xpub := wallet_xpub wallet in
  let description := product_description product in
  let w1 := after_request xpub amount description w in
  match addrequest env (settings env) xpub amount description with
  | Raise e => (Raise e, w1)
  | Ok data_got =>
      match data_got !! "address" with
      | None => (Raise (KeyError "address"), w1)
      | Some address =>
          match data_got !! "URI" with
          | None => (Raise (KeyError "URI"), w1)
          | Some uri =>
              match Invoice_insert_error
                      (invoice_columns kwargs address uri) (db w) with
              | Some e =>
                  (Raise e,
                   after_insert (invoice_columns kwargs address uri) w1)
              | None =>
                  (Ok (mkInvoice
                         (Invoice_new_id
                            (invoice_columns kwargs address uri) (db w))
                         (invoice_columns kwargs address uri) None, xpub),
                   after_insert (invoice_columns kwargs address uri) w1)
              end
          end
      end
  end.

(** The outcome of a call with a non-empty product list, by what the
    lookups of the chain answer. *)
Definition chain_outcome (env : Env) (kwargs : gmap string value)
    (w : World) (first : Z) : Result (Invoice * option string) * World :=
  match find_row (products (db w)) (VNum first) with
  | Raise e => (Raise e, w)
  | Ok None =>
      (Raise (HTTPException 422
                ("Product " +:+ str_int first +:+ " doesn't exist!")), w)
  | Ok (Some product) =>
  match find_row (stores (db w)) (to_value (product_store_id product)) with
  | Raise e => (Raise e, w)
  | Ok None =>
      (Raise (HTTPException 422
                ("Store " +:+ py_str (to_value (product_store_id product))
                 +:+ " doesn't exist!")), w)
  | Ok (Some store) =>
  match find_row (wallets (db w)) (to_value (store_wallet_id store)) with
  | Raise e => (Raise e, w)
  | Ok None => (Raise (HTTPException 422 "No wallet linked"), w)
  | Ok (Some wallet) =>
  match kwargs !! "amount" with
  | None => (Raise (KeyError "amount"), w)
  | Some amount => request_outcome env kwargs w product wallet amount
  end end end end.

(** The join rows of invoice [id] for the product ids [ids]. *)
Definition join_rows (id : Z) (ids : list Z) : list ProductxInvoice :=
  map (fun p => mkProductxInvoice (Some p) (Some id)) ids.

(** The world after the join rows of invoice [id] were deleted. *)
Definition after_delete (id : Z) (w : World) : World :=
  snd (ProductxInvoice_delete_where_invoice_id id w).

(** The world after [rows] were inserted into the join table, one by
    one. *)
Definition after_inserts (rows : list ProductxInvoice) (w : World) : World :=
  mkWorld
    (set_productsxinvoices (productsxinvoices (db w) ++ rows) (db w))
    (trace w ++ map InsertJoinRow rows)
    (entropy w) (entropy_pos w) (clock w).

(** The request with the [products] attribute of its instance assigned. *)
Definition with_instance_products (self : UpdateRequest) (ps : value)
  : UpdateRequest :=
  mkUpdateRequest
    (mkInvoice (invoice_id (_instance self))
               (invoice_values (_instance self)) (Some ps))
    (_values self) (_locator self) (self_products self).

(** The world after the column update of the row [loc] with [vals]. *)
Definition after_update (loc : Z) (vals : gmap string value) (w : World)
  : World :=
  log (UpdateInvoice loc vals)
    (set_db
       (set_invoices
          (map (fun r => if row_id r =? loc
                         then mkInvoiceRow (updated_id loc vals)
                                           (vals ∪ row_values r)
                         else r)
               (invoices (db w)))
          (invoices_id_seq (db w)) (db w))
       w).

(** Why the UPDATE of the row [loc] with [vals] is refused or finds no
    row, if so. *)
Definition update_error (loc : Z) (vals : gmap string value) (d : Database)
  : option exn :=
  match map_to_list vals with
  | [] => Some (PostgresSyntaxError "invoices")
  | _ :: _ =>
      match update_client_error loc vals with
      | Some e => Some e
      | None =>
          if negb (invoice_exists loc d) then Some NoSuchRowError
          else update_server_error loc vals d
      end
  end.

(** Every id of the list names a product. *)
Definition all_products (ids : list Z) (d : Database) : bool :=
  forallb (fun p => match products d !! p with
                    | Some _ => true
                    | None => false
                    end) ids.

(** A nullable reference is NULL or a 32-bit integer. *)
Definition ref_in_range (ref : option Z) : bool :=
  match ref with
  | Some id => is_int32 id
  | None => true
  end.

(** Every field is a column. *)
Definition only_columns (fields : gmap string value) : bool :=
  forallb (fun kv => is_column (fst kv)) (map_to_list fields).

(** The ids of the list whose join rows with invoice [id] the database
    takes, up to the first it refuses. *)
Fixpoint accepted_products (d : Database) (id : Z) (ids : list Z) : list Z :=
  match ids with
  | [] => []
  | p :: rest =>
      match join_row_error d id (VNum p) with
      | Some _ => []
      | None => p :: accepted_products d id rest
      end
  end.

(** ** A small shop *)

(** Wallet 3 funds store 7; store 8 has no wallet. Product 1 is sold by
    store 7, product 2 by no store, product 3 by store 8, product 4 by a
    store that is gone. Invoice 1 has the products 1 and 2, invoice 2 the
    product 3. *)

Definition shop_wallet : Wallet :=
  mkWallet 3 (Some "main") (Some "xpub661MyMwAqRbcF") (Some 0) None.

Definition shop_store : Store :=
  mkStore 7 (Some "tea shop") None None None (Some 3)
          None None None None None.

Definition shop_store_no_wallet : Store :=
  mkStore 8 (Some "closed shop") None None None None
          None None None None None.

Definition shop_tea : Product :=
  mkProduct 1 150000 10 "tea" 1572566400 (Some "green tea") None
            (Some 7) "active".

Definition shop_cup : Product :=
  mkProduct 2 90000 3 "cup" 1572566400 None None None "active".

Definition shop_pot : Product :=
  mkProduct 3 400000 1 "pot" 1572566400 None None (Some 8) "active".

Definition shop_tin : Product :=
  mkProduct 4 70000 1 "tin" 1572566400 None None (Some 9) "active".

Definition shop_invoice_values : gmap string value :=
  {[ "amount" := VNum 240000; "status" := VStr "pending";
     "date" := VNum 1572566400; "bitcoin_address" := VStr "bc1qcup";
     "bitcoin_url" := VStr "bitcoin:bc1qcup?amount=240000" ]}.

Definition shop_db : Database :=
  mkDatabase
    ∅ []
    {[ 3 := shop_wallet ]}
    {[ 7 := shop_store; 8 := shop_store_no_wallet ]}
    {[ 1 := shop_tea; 2 := shop_cup; 3 := shop_pot; 4 := shop_tin ]}
    [mkInvoiceRow 1 shop_invoice_values;
     mkInvoiceRow 2 {[ "amount" := VNum 400000 ]}]
    2
    [mkProductxInvoice (Some 1) (Some 1);
     mkProductxInvoice (Some 2) (Some 1);
     mkProductxInvoice (Some 3) (Some 2)].

Definition shop_world : World :=
  mkWorld shop_db [] (fun n => Byte.x2a) 0 1572566400.

Definition shop_invoice : Invoice := mkInvoice 1 shop_invoice_values None.

Definition shop_settings : Settings :=
  mkSettings "http://localhost:5000" "electrum" "electrumz".

Definition shop_response : gmap string value :=
  {[ "address" := VStr "bc1qtea"; "URI" := VStr "bitcoin:bc1qtea?amount=5" ]}.

(** A wallet service that answers every request. *)
Definition shop_env : Env :=
  mkEnv shop_settings (fun _ _ _ _ => Ok shop_response).

Definition connection_refused : exn :=
  OtherError "ConnectionError" "wallet service unreachable".

(** A wallet service that is down. *)
Definition shop_env_down : Env :=
  mkEnv shop_settings (fun _ _ _ _ => Raise connection_refused).

Definition order (ids : list Z) : gmap string value :=
  {[ "amount" := VNum 5; "status" := VStr "pending";
     "date" := VNum 1572566400; "products" := VList ids ]}.

(** An order that gives no date. *)
Definition order_without_date (ids : list Z) : gmap string value :=
  {[ "amount" := VNum 5; "status" := VStr "pending";
     "products" := VList ids ]}.

Definition paid : gmap string value := {[ "status" := VStr "paid" ]}.

Definition paid_no_products : gmap string value :=
  {[ "status" := VStr "paid"; "products" := VList [] ]}.

Definition paid_pot_and_tin : gmap string value :=
  {[ "status" := VStr "paid"; "products" := VList [3; 4] ]}.



(** The rows of the join table that belong to other invoices than [id]. *)
Definition other_join_rows (id : Z) (rows : list ProductxInvoice)
  : list ProductxInvoice :=
  List.filter (fun r => negb (refers (pxi_invoice_id r) id)) rows.

(** A wallet row with its owner set to NULL when the owner is [id]. *)
Definition disown (id : Z) (x : Wallet) : Wallet :=
  if refers (wallet_user_id x) id
  then mkWallet (wallet_id x) (wallet_name x) (wallet_xpub x)
                (wallet_balance x) None
  else x.

(** A wallet service that answers without an address. *)
Definition shop_env_no_address : Env :=
  mkEnv shop_settings
        (fun _ _ _ _ => Ok {[ "URI" := VStr "bitcoin:bc1qtea?amount=5" ]}).

(** A store row with its wallet set to NULL when the wallet is [id]. *)
Definition unlink_wallet (id : Z) (s : Store) : Store :=
  if refers (store_wallet_id s) id
  then mkStore (store_id s) (store_name s) (store_domain s)
               (store_template s) (store_email s) None
               (store_email_host s) (store_email_password s)
               (store_email_port s) (store_email_use_ssl s)
               (store_email_user s)
  else s.

(** A product row with its store set to NULL when the store is [id]. *)
Definition unlink_store (id : Z) (p : Product) : Product :=
  if refers (product_store_id p) id
  then mkProduct (product_id p) (product_amount p) (product_quantity p)
                 (product_title p) (product_date p) (product_description p)
                 (product_image p) None (product_status p)
  else p.




(** * Properties *)

(** ** Reasoning about the monad *)

Lemma bind_ok {A B : Type} (m : M A) (k : A -> M B) (w w' : World) (a : A) :
  m w = (Ok a, w') -> bind m k w = k a w'.
Proof. intros H. unfold bind. now rewrite H. Qed.

Lemma bind_raise {A B : Type} (m : M A) (k : A -> M B) (w w' : World)
    (e : exn) :
  m w = (Raise e, w') -> bind m k w = (Raise e, w').
Proof. intros H. unfold bind. now rewrite H. Qed.

Lemma getitem_some (d : gmap string value) (key : string) (v : value)
    (w : World) :
  d !! key = Some v -> getitem d key w = (Ok v, w).
Proof. intros H. unfold getitem. now rewrite H. Qed.

Lemma getitem_none (d : gmap string value) (key : string) (w : World) :
  d !! key = None -> getitem d key w = (Raise (KeyError key), w).
Proof. intros H. unfold getitem. now rewrite H. Qed.

(** ** Hexadecimal keys *)




(** ** Token issuance *)


(** ** Invoice creation *)

Lemma find_row_deref_some {R : Type} (rows : gmap Z R) (ref : option Z)
    (r : R) :
  deref rows ref = Some r -> find_row rows (to_value ref) = Ok (Some r).
Proof.
  destruct ref as [id|]; [|discriminate]. cbn. now intros ->.
Qed.

Lemma find_row_deref_none {R : Type} (rows : gmap Z R) (ref : option Z) :
  deref rows ref = None -> ref_in_range ref = true ->
  find_row rows (to_value ref) = Ok None.
Proof.
  destruct ref as [id|]; [|reflexivity]. cbn. now intros -> ->.
Qed.

Lemma find_row_some_deref {R : Type} (rows : gmap Z R) (ref : option Z)
    (r : R) :
  find_row rows (to_value ref) = Ok (Some r) -> deref rows ref = Some r.
Proof.
  destruct ref as [id|]; [|discriminate]. cbn.
  destruct (rows !! id); [congruence|]. now destruct (is_int32 id).
Qed.

Lemma find_row_num_some {R : Type} (rows : gmap Z R) (z : Z) (r : R) :
  find_row rows (VNum z) = Ok (Some r) -> rows !! z = Some r.
Proof.
  cbn. destruct (rows !! z); [congruence|]. now destruct (is_int32 z).
Qed.

(** On a table whose keys are all within the 32 bits of the key column,
    a lookup answers as the driver's check followed by the query. *)
Lemma find_row_range_first {R : Type} (rows : gmap Z R) (z : Z) :
  (forall k r, rows !! k = Some r -> is_int32 k = true) ->
  find_row rows (VNum z) =
    if is_int32 z then Ok (rows !! z)
    else Raise (DataError "invalid input for query argument").
Proof.
  intros Hkeys. cbn. destruct (rows !! z) as [r|] eqn:Hz.
  - now rewrite (Hkeys z r Hz).
  - now destruct (is_int32 z).
Qed.

(** The world the insert of an invoice leaves, and what it returns. *)
Lemma Invoice_insert_accepted (cols : gmap string value) (w : World) :
  Invoice_insert_error cols (db w) = None ->
  Invoice_insert cols w =
    (Ok (mkInvoice (Invoice_new_id cols (db w)) cols None),
     after_insert cols w) /\
  db (after_insert cols w) =
    set_invoices
      (invoices (db w) ++ [mkInvoiceRow (Invoice_new_id cols (db w)) cols])
      (invoices_id_seq (db (after_insert cols w))) (db w) /\
  trace (after_insert cols w) =
    trace w ++ [InsertInvoice (mkInvoiceRow (Invoice_new_id cols (db w))
                                            cols)].
Proof.
  unfold Invoice_insert_error, after_insert, Invoice_insert.
  destruct (Invoice_client_error cols); [discriminate|].
  intros ->. cbn. repeat split.
Qed.

Lemma Invoice_insert_refused (cols : gmap string value) (w : World)
    (e : exn) :
  Invoice_insert_error cols (db w) = Some e ->
  Invoice_insert cols w = (Raise e, after_insert cols w) /\
  db (after_insert cols w) =
    set_invoices (invoices (db w))
      (invoices_id_seq (db (after_insert cols w))) (db w) /\
  trace (after_insert cols w) = trace w.
Proof.
  unfold Invoice_insert_error, after_insert, Invoice_insert.
  destruct (Invoice_client_error cols) as [e0|].
  - intros [= ->]. cbn. repeat split. now destruct w as [[] ? ? ? ?].
  - intros ->. cbn. repeat split.
Qed.

Section InvoiceCreate.

Variable env : Env.
Variable kwargs : gmap string value.
Variable w : World.

Ltac run_ok tac := erewrite bind_ok by tac; cbv beta iota.
Ltac run_ret := run_ok ltac:(unfold ret; reflexivity).
Ltac run_getitem := run_ok ltac:(apply getitem_some; eassumption).
Ltac run_get H :=
  run_ok ltac:(unfold Product_get, Store_get, Wallet_get, Model_get;
               rewrite H; reflexivity).
Ltac raise_get H :=
  erewrite bind_raise;
  [reflexivity
  |unfold Product_get, Store_get, Wallet_get, Model_get;
   rewrite H; reflexivity].

Lemma Invoice_create_chain (first : Z) (rest : list Z) :
  kwargs !! "products" = Some (VList (first :: rest)) ->
  Invoice_create env kwargs w = chain_outcome env kwargs w first.
Proof.
  intros Hps. unfold Invoice_create, chain_outcome.
  run_getitem. cbn [truthy negb subscript0]. run_ret.
  destruct (find_row (products (db w)) (VNum first))
    as [[product|]|e] eqn:Hp; [| |raise_get Hp].
  2:{ run_get Hp. reflexivity. }
  run_get Hp.
  destruct (find_row (stores (db w)) (to_value (product_store_id product)))
    as [[store|]|e] eqn:Hs; [| |raise_get Hs].
  2:{ run_get Hs. reflexivity. }
  run_get Hs.
  destruct (find_row (wallets (db w)) (to_value (store_wallet_id store)))
    as [[wallet|]|e] eqn:Hw; [| |raise_get Hw].
  2:{ run_get Hw. reflexivity. }
  run_get Hw. cbv zeta.
  destruct (kwargs !! "amount") as [amount|] eqn:Ham.
  2:{ erewrite bind_raise; [reflexivity|]. now apply getitem_none. }
  run_getitem. unfold request_outcome. cbv zeta.
  unfold bind at 1, BTC_addrequest at 1, after_request.
  destruct (addrequest _ _ _ _ _) as [data_got|e]; [|reflexivity].
  unfold bind at 1, getitem at 1.
  destruct (data_got !! "address") as [address|]; [|reflexivity].
  unfold ret at 1, bind at 1, getitem at 1.
  destruct (data_got !! "URI") as [uri|]; [|reflexivity].
  unfold ret at 1, bind at 1.
  fold (invoice_columns kwargs address uri).
  set (cols := invoice_columns kwargs address uri).
  set (w1 := log (RpcAddRequest (wallet_xpub wallet) amount
                    (product_description product)) w).
  destruct (Invoice_insert_error cols (db w)) as [e|] eqn:Hins.
  - destruct (Invoice_insert_refused cols w1 e Hins) as (-> & _).
    reflexivity.
  - destruct (Invoice_insert_accepted cols w1 Hins) as (-> & _).
    reflexivity.
Qed.

Lemma Invoice_create_no_products_key :
  kwargs !! "products" = None ->
  Invoice_create env kwargs w = (Raise (KeyError "products"), w).
Proof.
  intros Hps. unfold Invoice_create.
  erewrite bind_raise; [reflexivity|]. now apply getitem_none.
Qed.

Lemma Invoice_create_falsy (ps : value) :
  kwargs !! "products" = Some ps ->
  truthy ps = false ->
  Invoice_create env kwargs w =
    (Raise (HTTPException 422 "Products list empty"), w).
Proof.
  intros Hps Hfalsy. unfold Invoice_create.
  run_getitem. now rewrite Hfalsy.
Qed.

End InvoiceCreate.

Lemma Invoice_create_not_a_list (env : Env) (kwargs : gmap string value)
    (ps : value) :
  kwargs !! "products" = Some ps ->
  truthy ps = true ->
  (forall ids, ps <> VList ids) ->
  exists e, forall w, Invoice_create env kwargs w = (Raise e, w).
Proof.
  intros Hps Htruthy Hnolist.
  destruct ps as [|z|[|c s]|ids]; try discriminate Htruthy.
  - eexists. intros w. unfold Invoice_create.
    erewrite bind_ok by (apply getitem_some; eassumption).
    cbv beta iota. rewrite Htruthy. cbn [negb].
    erewrite bind_raise; reflexivity.
  - eexists. intros w. unfold Invoice_create.
    erewrite bind_ok by (apply getitem_some; eassumption).
    cbv beta iota. cbn [truthy negb String.eqb].
    erewrite bind_ok by (unfold ret; reflexivity). cbv beta iota.
    erewrite bind_raise; reflexivity.
  - now destruct (Hnolist ids).
Qed.

(** With the chain resolved and the amount given, the outcome is decided
    by the wallet service and by what the database makes of the row. *)
Lemma Invoice_create_resolved (env : Env) (kwargs : gmap string value)
    (w : World) (first : Z) (rest : list Z) (product : Product)
    (store : Store) (wallet : Wallet) (amount : value) :
  kwargs !! "products" = Some (VList (first :: rest)) ->
  products (db w) !! first = Some product ->
  deref (stores (db w)) (product_store_id product) = Some store ->
  deref (wallets (db w)) (store_wallet_id store) = Some wallet ->
  kwargs !! "amount" = Some amount ->
  Invoice_create env kwargs w =
    request_outcome env kwargs w product wallet amount.
Proof.
  intros Hps Hp Hs Hw Ham.
  rewrite (Invoice_create_chain env kwargs w first rest Hps).
  unfold chain_outcome. cbn [find_row]. rewrite Hp.
  rewrite (find_row_deref_some _ _ _ Hs), (find_row_deref_some _ _ _ Hw).
  now rewrite Ham.
Qed.

(** Every call ends in one of four ways: it raises before anything was
    sent or written; it raises after the payment request was sent, with
    nothing written; the payment request was answered with an address and
    a URI and the row was refused; or it was inserted and the call
    returns. *)
Lemma Invoice_create_cases (env : Env) (kwargs : gmap string value)
    (w : World) :
  (exists e, Invoice_create env kwargs w = (Raise e, w)) \/
  (exists e xpub amount description,
      Invoice_create env kwargs w =
        (Raise e, after_request xpub amount description w)) \/
  (exists e xpub amount description data_got address uri,
      addrequest env (settings env) xpub amount description = Ok data_got /\
      data_got !! "address" = Some address /\
      data_got !! "URI" = Some uri /\
      Invoice_insert_error (invoice_columns kwargs address uri) (db w)
        = Some e /\
      Invoice_create env kwargs w =
        (Raise e,
         after_insert (invoice_columns kwargs address uri)
           (after_request xpub amount description w))) \/
  (exists xpub amount description data_got address uri,
      addrequest env (settings env) xpub amount description = Ok data_got /\
      data_got !! "address" = Some address /\
      data_got !! "URI" = Some uri /\
      Invoice_insert_error (invoice_columns kwargs address uri) (db w)
        = None /\
      Invoice_create env kwargs w =
        (Ok (mkInvoice
               (Invoice_new_id (invoice_columns kwargs address uri) (db w))
               (invoice_columns kwargs address uri) None, xpub),
         after_insert (invoice_columns kwargs address uri)
           (after_request xpub amount description w))).
Proof.
  destruct (kwargs !! "products") as [ps|] eqn:Hps.
  2:{ left. eexists. now apply Invoice_create_no_products_key. }
  destruct (truthy ps) eqn:Htruthy.
  2:{ left. eexists. eapply Invoice_create_falsy; eassumption. }
  destruct ps as [|z|s|[|first rest]]; try discriminate Htruthy.
  1,2: destruct (Invoice_create_not_a_list env kwargs _ Hps Htruthy)
         as [e He]; [intros ids; discriminate|];
       left; exists e; apply He.
  rewrite (Invoice_create_chain env kwargs w first rest Hps).
  unfold chain_outcome.
  destruct (find_row (products (db w)) (VNum first)) as [[product|]|e];
    [| left; eexists; reflexivity ..].
  destruct (find_row (stores (db w)) _) as [[store|]|e];
    [| left; eexists; reflexivity ..].
  destruct (find_row (wallets (db w)) _) as [[wallet|]|e];
    [| left; eexists; reflexivity ..].
  destruct (kwargs !! "amount") as [amount|];
    [| left; eexists; reflexivity].
  right. unfold request_outcome. cbv zeta.
  destruct (addrequest _ _ _ _ _) as [data_got|e] eqn:Hrpc.
  2:{ left. eexists _, _, _, _. reflexivity. }
  destruct (data_got !! "address") as [address|] eqn:Haddress.
  2:{ left. eexists _, _, _, _. reflexivity. }
  destruct (data_got !! "URI") as [uri|] eqn:Huri.
  2:{ left. eexists _, _, _, _. reflexivity. }
  right.
  destruct (Invoice_insert_error _ _) as [e|] eqn:Hins.
  - left. eexists _, _, _, _, _, _, _.
    split; [exact Hrpc|]. split; [exact Haddress|]. split; [exact Huri|].
    split; [exact Hins|]. reflexivity.
  - right. eexists _, _, _, _, _, _.
    split; [exact Hrpc|]. split; [exact Haddress|]. split; [exact Huri|].
    split; [exact Hins|]. reflexivity.
Qed.

(** What a returning call tells about its arguments and the world it
    started in. *)
Lemma Invoice_create_ok_inv (env : Env) (kwargs : gmap string value)
    (w w' : World) (invoice : Invoice) (xpub : option string) :
  Invoice_create env kwargs w = (Ok (invoice, xpub), w') ->
  exists first rest product store wallet amount data_got address uri,
    kwargs !! "products" = Some (VList (first :: rest)) /\
    products (db w) !! first = Some product /\
    deref (stores (db w)) (product_store_id product) = Some store /\
    deref (wallets (db w)) (store_wallet_id store) = Some wallet /\
    kwargs !! "amount" = Some amount /\
    xpub = wallet_xpub wallet /\
    addrequest env (settings env) xpub amount (product_description product)
      = Ok data_got /\
    data_got !! "address" = Some address /\
    data_got !! "URI" = Some uri /\
    Invoice_insert_error (invoice_columns kwargs address uri) (db w)
      = None /\
    invoice = mkInvoice
                (Invoice_new_id (invoice_columns kwargs address uri) (db w))
                (invoice_columns kwargs address uri) None /\
    w' = after_insert (invoice_columns kwargs address uri)
           (after_request xpub amount (product_description product) w).
Proof.
  intros Hrun.
  destruct (kwargs !! "products") as [ps|] eqn:Hps.
  2:{ rewrite Invoice_create_no_products_key in Hrun by assumption.
      discriminate Hrun. }
  destruct (truthy ps) eqn:Htruthy.
  2:{ rewrite (Invoice_create_falsy env kwargs w ps Hps Htruthy) in Hrun.
      discriminate Hrun. }
  destruct ps as [|z|s|[|first rest]]; try discriminate Htruthy.
  1,2: destruct (Invoice_create_not_a_list env kwargs _ Hps Htruthy)
         as [e He];
       [intros ids; discriminate | rewrite He in Hrun; discriminate Hrun].
  rewrite (Invoice_create_chain env kwargs w first rest Hps) in Hrun.
  unfold chain_outcome in Hrun.
  destruct (find_row (products (db w)) (VNum first))
    as [[product|]|e] eqn:Hp; try discriminate Hrun.
  destruct (find_row (stores (db w)) _) as [[store|]|e] eqn:Hs;
    try discriminate Hrun.
  destruct (find_row (wallets (db w)) _) as [[wallet|]|e] eqn:Hw;
    try discriminate Hrun.
  destruct (kwargs !! "amount") as [amount|] eqn:Ham;
    [|discriminate Hrun].
  unfold request_outcome in Hrun. cbv zeta in Hrun.
  destruct (addrequest _ _ _ _ _) as [data_got|e] eqn:Hrpc;
    [|discriminate Hrun].
  destruct (data_got !! "address") as [address|] eqn:Haddress;
    [|discriminate Hrun].
  destruct (data_got !! "URI") as [uri|] eqn:Huri; [|discriminate Hrun].
  destruct (Invoice_insert_error _ _) as [e|] eqn:Hins;
    [discriminate Hrun|].
  injection Hrun as <- <- <-.
  exists first, rest, product, store, wallet, amount, data_got, address, uri.
  split; [reflexivity|]. split; [now apply find_row_num_some|].
  split; [now apply find_row_some_deref|].
  split; [now apply find_row_some_deref|].
  repeat split; assumption || reflexivity.
Qed.

Lemma invoice_columns_address (kwargs : gmap string value)
    (address uri : value) :
  invoice_columns kwargs address uri !! "bitcoin_address" = Some address.
Proof.
  unfold invoice_columns.
  rewrite lookup_delete_ne by discriminate.
  rewrite lookup_insert_ne by discriminate.
  apply lookup_insert_eq.
Qed.

Lemma invoice_columns_url (kwargs : gmap string value)
    (address uri : value) :
  invoice_columns kwargs address uri !! "bitcoin_url" = Some uri.
Proof.
  unfold invoice_columns.
  rewrite lookup_delete_ne by discriminate.
  apply lookup_insert_eq.
Qed.

Lemma invoice_columns_products (kwargs : gmap string value)
    (address uri : value) :
  invoice_columns kwargs address uri !! "products" = None.
Proof. unfold invoice_columns. apply lookup_delete_eq. Qed.

Lemma invoice_columns_other (kwargs : gmap string value)
    (address uri : value) (key : string) :
  key <> "products" -> key <> "bitcoin_address" -> key <> "bitcoin_url" ->
  invoice_columns kwargs address uri !! key = kwargs !! key.
Proof.
  intros H1 H2 H3. unfold invoice_columns.
  rewrite lookup_delete_ne by congruence.
  rewrite !lookup_insert_ne by congruence.
  reflexivity.
Qed.

(** The inserted columns do not depend on the [products] entry. *)
Lemma invoice_columns_insert_products (kwargs : gmap string value)
    (ps address uri : value) :
  invoice_columns (<["products" := ps]> kwargs) address uri =
  invoice_columns kwargs address uri.
Proof.
  apply map_eq. intros key. unfold invoice_columns.
  destruct (decide (key = "products")) as [->|Hne].
  - now rewrite !lookup_delete_eq.
  - rewrite !lookup_delete_ne by congruence.
    destruct (decide (key = "bitcoin_url")) as [->|Hne1].
    + now rewrite !lookup_insert_eq.
    + rewrite !(lookup_insert_ne _ "bitcoin_url") by congruence.
      destruct (decide (key = "bitcoin_address")) as [->|Hne2].
      * now rewrite !lookup_insert_eq.
      * now rewrite !lookup_insert_ne by congruence.
Qed.


(** C6, as amended. [Invoice.create] raises the 422 validation error with
    the fixed message of the first unmet precondition and leaves the
    world as it was (nothing written, nothing sent): an empty product
    list; a first product id, a 32-bit integer, that names no product; a
    product whose store id is NULL or names no store ([{id}] is that
    store id, [None] for NULL); a store whose wallet id is NULL or names
    no wallet. Each case holds whatever the later links of the chain
    are. *)
Theorem Invoice_create_validation_errors (env : Env)
    (kwargs : gmap string value) (w : World) :
  (kwargs !! "products" = Some (VList []) ->
   Invoice_create env kwargs w =
     (Raise (HTTPException 422 "Products list empty"), w)) /\
  (forall first rest,
     kwargs !! "products" = Some (VList (first :: rest)) ->
     is_int32 first = true ->
     products (db w) !! first = None ->
     Invoice_create env kwargs w =
       (Raise (HTTPException 422
                 ("Product " +:+ str_int first +:+ " doesn't exist!")), w)) /\
  (forall first rest product,
     kwargs !! "products" = Some (VList (first :: rest)) ->
     products (db w) !! first = Some product ->
     ref_in_range (product_store_id product) = true ->
     deref (stores (db w)) (product_store_id product) = None ->
     Invoice_create env kwargs w =
       (Raise (HTTPException 422
                 ("Store " +:+ py_str (to_value (product_store_id product))
                  +:+ " doesn't exist!")), w)) /\
  (forall first rest product store,
     kwargs !! "products" = Some (VList (first :: rest)) ->
     products (db w) !! first = Some product ->
     deref (stores (db w)) (product_store_id product) = Some store ->
     ref_in_range (store_wallet_id store) = true ->
     deref (wallets (db w)) (store_wallet_id store) = None ->
     Invoice_create env kwargs w =
       (Raise (HTTPException 422 "No wallet linked"), w)).
Proof.
  split; [|split; [|split]].
  - intros Hps. now apply Invoice_create_falsy with (VList []).
  - intros first rest Hps Hrange Hp.
    rewrite (Invoice_create_chain env kwargs w first rest Hps).
    unfold chain_outcome. cbn [find_row]. now rewrite Hp, Hrange.
  - intros first rest product Hps Hp Hrange Hs.
    rewrite (Invoice_create_chain env kwargs w first rest Hps).
    unfold chain_outcome. cbn [find_row]. rewrite Hp.
    now rewrite (find_row_deref_none _ _ Hs Hrange).
  - intros first rest product store Hps Hp Hs Hrange Hw.
    rewrite (Invoice_create_chain env kwargs w first rest Hps).
    unfold chain_outcome. cbn [find_row]. rewrite Hp.
    rewrite (find_row_deref_some _ _ _ Hs).
    now rewrite (find_row_deref_none _ _ Hw Hrange).
Qed.

(** C4, as amended. When the product list is non-empty, its first id names
    a product, the product's store id names a store, the store's wallet
    id names a wallet, the wallet service answers the payment request for
    the given amount with an address and a URI, and the database accepts
    the row made of the other keyword arguments, the address and the URI
    (columns only; amount, status and date given, not NULL and of their
    column's type; strings within the columns' lengths; an id, if given,
    that no invoice has): [Invoice.create] returns an invoice together
    with the wallet's xpub; exactly one invoice row is appended, the row
    of that invoice; its [bitcoin_address] and [bitcoin_url] are the
    address and the URI of the answer; the request was sent before the
    row was inserted. *)
Theorem Invoice_create_valid_chain (env : Env) (kwargs : gmap string value)
    (w : World) (first : Z) (rest : list Z) (product : Product)
    (store : Store) (wallet : Wallet) (amount : value)
    (data_got : gmap string value) (address uri : value) :
  kwargs !! "products" = Some (VList (first :: rest)) ->
  kwargs !! "amount" = Some amount ->
  products (db w) !! first = Some product ->
  deref (stores (db w)) (product_store_id product) = Some store ->
  deref (wallets (db w)) (store_wallet_id store) = Some wallet ->
  addrequest env (settings env) (wallet_xpub wallet) amount
    (product_description product) = Ok data_got ->
  data_got !! "address" = Some address ->
  data_got !! "URI" = Some uri ->
  Invoice_insert_error (invoice_columns kwargs address uri) (db w) = None ->
  exists (invoice : Invoice) (w' : World),
    Invoice_create env kwargs w = (Ok (invoice, wallet_xpub wallet), w') /\
    invoices (db w') =
      invoices (db w) ++
      [mkInvoiceRow (invoice_id invoice) (invoice_values invoice)] /\
    invoice_values invoice !! "bitcoin_address" = Some address /\
    invoice_values invoice !! "bitcoin_url" = Some uri /\
    trace w' =
      trace w ++
      [RpcAddRequest (wallet_xpub wallet) amount
         (product_description product);
       InsertInvoice
         (mkInvoiceRow (invoice_id invoice) (invoice_values invoice))].
Proof.
  intros Hps Ham Hp Hs Hw Hrpc Haddress Huri Hins.
  eexists _, _. split.
  { rewrite (Invoice_create_resolved env kwargs w first rest product store
               wallet amount) by assumption.
    unfold request_outcome. cbv zeta.
    rewrite Hrpc, Haddress, Huri, Hins. reflexivity. }
  cbn [invoice_id invoice_values].
  destruct (Invoice_insert_accepted (invoice_columns kwargs address uri)
              (after_request (wallet_xpub wallet) amount
                 (product_description product) w) Hins)
    as (_ & Hdb & Htrace).
  split; [now rewrite Hdb|].
  split; [apply invoice_columns_address|].
  split; [apply invoice_columns_url|].
  rewrite Htrace. cbn. now rewrite <- app_assoc.
Qed.

(** C5. When the chain is resolved and the wallet service fails, the call
    raises the very exception of the service, the database is as it was
    and the payment request is all that was sent. Moreover, whatever the
    arguments, a call either leaves the invoices table as it was or
    appends one row, after the payment request was answered, with the
    address and the URI of the answer in it. *)
Theorem Invoice_create_rpc_failure (env : Env) (kwargs : gmap string value)
    (w : World) (first : Z) (rest : list Z) (product : Product)
    (store : Store) (wallet : Wallet) (amount : value) (e : exn) :
  kwargs !! "products" = Some (VList (first :: rest)) ->
  kwargs !! "amount" = Some amount ->
  products (db w) !! first = Some product ->
  deref (stores (db w)) (product_store_id product) = Some store ->
  deref (wallets (db w)) (store_wallet_id store) = Some wallet ->
  addrequest env (settings env) (wallet_xpub wallet) amount
    (product_description product) = Raise e ->
  (exists w' : World,
     Invoice_create env kwargs w = (Raise e, w') /\
     db w' = db w /\
     trace w' =
       trace w ++
       [RpcAddRequest (wallet_xpub wallet) amount
          (product_description product)]) /\
  (forall kwargs0 w0 r w1,
     Invoice_create env kwargs0 w0 = (r, w1) ->
     invoices (db w1) = invoices (db w0) \/
     exists row xpub amount0 description data_got address uri,
       addrequest env (settings env) xpub amount0 description
         = Ok data_got /\
       data_got !! "address" = Some address /\
       data_got !! "URI" = Some uri /\
       invoices (db w1) = invoices (db w0) ++ [row] /\
       row_values row !! "bitcoin_address" = Some address /\
       row_values row !! "bitcoin_url" = Some uri /\
       trace w1 =
         trace w0 ++
         [RpcAddRequest xpub amount0 description; InsertInvoice row]).
Proof.
  intros Hps Ham Hp Hs Hw Hrpc. split.
  - eexists. split.
    { rewrite (Invoice_create_resolved env kwargs w first rest product store
                 wallet amount) by assumption.
      unfold request_outcome. cbv zeta. rewrite Hrpc. reflexivity. }
    split; reflexivity.
  - intros kwargs0 w0 r w1 Hrun.
    destruct (Invoice_create_cases env kwargs0 w0)
      as [[e0 H]|[(e0 & xpub & amount0 & description & H)
                 |[(e0 & xpub & amount0 & description & data_got & address
                    & uri & Hok & Haddress & Huri & Hins & H)
                  |(xpub & amount0 & description & data_got & address & uri
                    & Hok & Haddress & Huri & Hins & H)]]];
      rewrite H in Hrun; injection Hrun as <- <-.
    + now left.
    + now left.
    + left.
      destruct (Invoice_insert_refused _
                  (after_request xpub amount0 description w0) _ Hins)
        as (_ & Hdb & _).
      now rewrite Hdb.
    + right.
      destruct (Invoice_insert_accepted _
                  (after_request xpub amount0 description w0) Hins)
        as (_ & Hdb & Htrace).
      eexists _, xpub, amount0, description, data_got, address, uri.
      split; [exact Hok|]. split; [exact Haddress|]. split; [exact Huri|].
      split; [now rewrite Hdb|].
      split; [apply invoice_columns_address|].
      split; [apply invoice_columns_url|].
      rewrite Htrace. cbn. now rewrite <- app_assoc.
Qed.

(** C7. The outcome of [Invoice.create], the exception or the invoice and
    the xpub returned, and the world it leaves, are the same for any two
    product lists with the same first id: the ids after the first one are
    neither looked up nor checked. *)
Theorem Invoice_create_first_product_only (env : Env)
    (kwargs : gmap string value) (w : World) (first : Z)
    (rest rest' : list Z) :
  Invoice_create env (<["products" := VList (first :: rest)]> kwargs) w =
  Invoice_create env (<["products" := VList (first :: rest')]> kwargs) w.
Proof.
  rewrite
    (Invoice_create_chain env _ w first rest
       (lookup_insert_eq kwargs "products" (VList (first :: rest)))),
    (Invoice_create_chain env _ w first rest'
       (lookup_insert_eq kwargs "products" (VList (first :: rest')))).
  unfold chain_outcome.
  rewrite !(lookup_insert_ne kwargs "products" "amount") by discriminate.
  destruct (find_row (products (db w)) (VNum first)) as [[product|]|e];
    try reflexivity.
  destruct (find_row (stores (db w)) _) as [[store|]|e]; try reflexivity.
  destruct (find_row (wallets (db w)) _) as [[wallet|]|e]; try reflexivity.
  destruct (kwargs !! "amount") as [amount|]; [|reflexivity].
  unfold request_outcome. cbv zeta.
  destruct (addrequest _ _ _ _ _) as [data_got|e]; [|reflexivity].
  destruct (data_got !! "address") as [address|]; [|reflexivity].
  destruct (data_got !! "URI") as [uri|]; [|reflexivity].
  now rewrite !invoice_columns_insert_products.
Qed.

(** C10. A call of [Invoice.create] that returns leaves the join table as
    it was and issues no join-row insert: all it sends and writes is the
    payment request and the invoice row. The row and the returned
    invoice hold no [products] entry, and the [products] attribute of the
    invoice is unset. *)
Theorem Invoice_create_no_join_rows (env : Env) (kwargs : gmap string value)
    (w w' : World) (invoice : Invoice) (xpub : option string) :
  Invoice_create env kwargs w = (Ok (invoice, xpub), w') ->
  productsxinvoices (db w') = productsxinvoices (db w) /\
  invoice_values invoice !! "products" = None /\
  invoice_products invoice = None /\
  exists amount description,
    trace w' =
      trace w ++
      [RpcAddRequest xpub amount description;
       InsertInvoice
         (mkInvoiceRow (invoice_id invoice) (invoice_values invoice))].
Proof.
  intros Hrun.
  destruct (Invoice_create_ok_inv env kwargs w w' invoice xpub Hrun)
    as (first & rest & product & store & wallet & amount & data_got
        & address & uri & _ & _ & _ & _ & _ & _ & _ & _ & _ & Hins
        & -> & ->).
  destruct (Invoice_insert_accepted _
              (after_request xpub amount (product_description product) w)
              Hins) as (_ & Hdb & Htrace).
  split; [now rewrite Hdb|].
  split; [apply invoice_columns_products|].
  split; [reflexivity|].
  exists amount, (product_description product).
  rewrite Htrace. cbn. now rewrite <- app_assoc.
Qed.

(** ** Invoice creation: missing keys, incomplete answers, what is kept *)

(** X1. A call without a [products] key raises [KeyError] for that key; a
    call whose [products] is [None] (or any other falsy value) raises the
    same 422 as the empty list; a call whose chain is resolved but which
    gives no [amount] raises [KeyError] for [amount]. In each case the
    world is as it was: in particular the wallet service is not asked
    before the amount is known to be there. *)
Theorem Invoice_create_missing_arguments (env : Env)
    (kwargs : gmap string value) (w : World) :
  (kwargs !! "products" = None ->
   Invoice_create env kwargs w = (Raise (KeyError "products"), w)) /\
  (forall ps,
     kwargs !! "products" = Some ps -> truthy ps = false ->
     Invoice_create env kwargs w =
       (Raise (HTTPException 422 "Products list empty"), w)) /\
  (forall first rest product store wallet,
     kwargs !! "products" = Some (VList (first :: rest)) ->
     products (db w) !! first = Some product ->
     deref (stores (db w)) (product_store_id product) = Some store ->
     deref (wallets (db w)) (store_wallet_id store) = Some wallet ->
     kwargs !! "amount" = None ->
     Invoice_create env kwargs w = (Raise (KeyError "amount"), w)).
Proof.
  split; [apply Invoice_create_no_products_key|].
  split; [intros ps; apply Invoice_create_falsy|].
  intros first rest product store wallet Hps Hp Hs Hw Ham.
  rewrite (Invoice_create_chain env kwargs w first rest Hps).
  unfold chain_outcome. cbn [find_row]. rewrite Hp.
  rewrite (find_row_deref_some _ _ _ Hs), (find_row_deref_some _ _ _ Hw).
  now rewrite Ham.
Qed.

(** X2. When the chain is resolved and the wallet service answers with a
    dictionary that lacks [address], or has it and lacks [URI], the call
    raises [KeyError] for the missing key; the request was sent, and the
    database is as it was: no invoice row is written. *)
Theorem Invoice_create_incomplete_answer (env : Env)
    (kwargs : gmap string value) (w : World) (first : Z) (rest : list Z)
    (product : Product) (store : Store) (wallet : Wallet) (amount : value)
    (data_got : gmap string value) :
  kwargs !! "products" = Some (VList (first :: rest)) ->
  kwargs !! "amount" = Some amount ->
  products (db w) !! first = Some product ->
  deref (stores (db w)) (product_store_id product) = Some store ->
  deref (wallets (db w)) (store_wallet_id store) = Some wallet ->
  addrequest env (settings env) (wallet_xpub wallet) amount
    (product_description product) = Ok data_got ->
  data_got !! "address" = None \/ data_got !! "URI" = None ->
  exists (key : string) (w' : World),
    Invoice_create env kwargs w = (Raise (KeyError key), w') /\
    key = match data_got !! "address" with
          | Some _ => "URI"
          | None => "address"
          end /\
    db w' = db w /\
    trace w' =
      trace w ++
      [RpcAddRequest (wallet_xpub wallet) amount
         (product_description product)].
Proof.
  intros Hps Ham Hp Hs Hw Hrpc Hmissing.
  rewrite (Invoice_create_resolved env kwargs w first rest product store
             wallet amount Hps Hp Hs Hw Ham).
  unfold request_outcome. cbv zeta. rewrite Hrpc.
  destruct (data_got !! "address") as [address|].
  - destruct Hmissing as [Hmissing|Hmissing]; [discriminate Hmissing|].
    rewrite Hmissing. eexists _, _. repeat split; reflexivity.
  - eexists _, _. repeat split; reflexivity.
Qed.

(** X3. Whatever the arguments and however the call ends, [Invoice.create]
    leaves the users, tokens, wallets, stores, products and join rows as
    they were, and the invoices it found stay in place: the table is
    unchanged or has one row more at its end. *)
Theorem Invoice_create_frame (env : Env) (kwargs : gmap string value)
    (w : World) :
  users (db (snd (Invoice_create env kwargs w))) = users (db w) /\
  tokens (db (snd (Invoice_create env kwargs w))) = tokens (db w) /\
  wallets (db (snd (Invoice_create env kwargs w))) = wallets (db w) /\
  stores (db (snd (Invoice_create env kwargs w))) = stores (db w) /\
  products (db (snd (Invoice_create env kwargs w))) = products (db w) /\
  productsxinvoices (db (snd (Invoice_create env kwargs w))) =
    productsxinvoices (db w) /\
  (invoices (db (snd (Invoice_create env kwargs w))) = invoices (db w) \/
   exists row,
     invoices (db (snd (Invoice_create env kwargs w))) =
       invoices (db w) ++ [row]).
Proof.
  destruct (Invoice_create_cases env kwargs w)
    as [[e H]|[(e & xpub & amount & description & H)
              |[(e & xpub & amount & description & data_got & address & uri
                 & _ & _ & _ & Hins & H)
               |(xpub & amount & description & data_got & address & uri
                 & _ & _ & _ & Hins & H)]]];
    rewrite H; cbn [snd].
  - repeat split; try reflexivity. now left.
  - repeat split; try reflexivity. now left.
  - destruct (Invoice_insert_refused _
                (after_request xpub amount description w) _ Hins)
      as (_ & -> & _).
    repeat split; try reflexivity. now left.
  - destruct (Invoice_insert_accepted _
                (after_request xpub amount description w) Hins)
      as (_ & -> & _).
    repeat split; try reflexivity. right. eexists. reflexivity.
Qed.

(** X4. A call that returns was given a non-empty product list whose first
    id names a product with a store with a wallet, and an amount; the
    xpub it returns is that wallet's; the wallet service answered the
    request for that xpub, amount and product description, and the
    invoice's [bitcoin_address] and [bitcoin_url] are the answer's, also
    when the caller passed values for them. *)
Theorem Invoice_create_returns_only_for_valid_chain (env : Env)
    (kwargs : gmap string value) (w w' : World) (invoice : Invoice)
    (xpub : option string) :
  Invoice_create env kwargs w = (Ok (invoice, xpub), w') ->
  exists first rest product store wallet amount data_got,
    kwargs !! "products" = Some (VList (first :: rest)) /\
    products (db w) !! first = Some product /\
    deref (stores (db w)) (product_store_id product) = Some store /\
    deref (wallets (db w)) (store_wallet_id store) = Some wallet /\
    kwargs !! "amount" = Some amount /\
    xpub = wallet_xpub wallet /\
    addrequest env (settings env) xpub amount (product_description product)
      = Ok data_got /\
    is_Some (data_got !! "address") /\
    invoice_values invoice !! "bitcoin_address" = data_got !! "address" /\
    is_Some (data_got !! "URI") /\
    invoice_values invoice !! "bitcoin_url" = data_got !! "URI".
Proof.
  intros Hrun.
  destruct (Invoice_create_ok_inv env kwargs w w' invoice xpub Hrun)
    as (first & rest & product & store & wallet & amount & data_got
        & address & uri & Hps & Hp & Hs & Hw & Ham & Hxpub & Hrpc
        & Haddress & Huri & _ & -> & _).
  exists first, rest, product, store, wallet, amount, data_got.
  cbn [invoice_values].
  rewrite invoice_columns_address, invoice_columns_url, Haddress, Huri.
  repeat split; try assumption; eexists; reflexivity.
Qed.

(** X5. A call that returns has stored every field it was given other than
    [products], [bitcoin_address] and [bitcoin_url] as given, and the
    invoice it returns is the row appended to the table. *)
Theorem Invoice_create_keeps_other_fields (env : Env)
    (kwargs : gmap string value) (w w' : World) (invoice : Invoice)
    (xpub : option string) :
  Invoice_create env kwargs w = (Ok (invoice, xpub), w') ->
  (forall key,
     key <> "products" -> key <> "bitcoin_address" ->
     key <> "bitcoin_url" ->
     invoice_values invoice !! key = kwargs !! key) /\
  invoices (db w') =
    invoices (db w) ++
    [mkInvoiceRow (invoice_id invoice) (invoice_values invoice)].
Proof.
  intros Hrun.
  destruct (Invoice_create_ok_inv env kwargs w w' invoice xpub Hrun)
    as (first & rest & product & store & wallet & amount & data_got
        & address & uri & _ & _ & _ & _ & _ & _ & _ & _ & _ & Hins
        & -> & ->).
  split; [intros key; apply invoice_columns_other|].
  destruct (Invoice_insert_accepted _
              (after_request xpub amount (product_description product) w)
              Hins) as (_ & -> & _).
  reflexivity.
Qed.

(** X17. One call of [Invoice.create] asks the wallet service at most
    once and inserts at most one row, the insert coming after the answer:
    all it adds to the log of statements is nothing, the payment request,
    or the payment request followed by the insert of the returned
    invoice's row. A call that raises has inserted nothing. *)
Theorem Invoice_create_single_request (env : Env)
    (kwargs : gmap string value) (w : World) :
  trace (snd (Invoice_create env kwargs w)) = trace w \/
  (exists xpub amount description,
     trace (snd (Invoice_create env kwargs w)) =
       trace w ++ [RpcAddRequest xpub amount description] /\
     exists e, fst (Invoice_create env kwargs w) = Raise e) \/
  (exists xpub amount description invoice,
     trace (snd (Invoice_create env kwargs w)) =
       trace w ++
       [RpcAddRequest xpub amount description;
        InsertInvoice
          (mkInvoiceRow (invoice_id invoice) (invoice_values invoice))] /\
     fst (Invoice_create env kwargs w) = Ok (invoice, xpub)).
Proof.
  destruct (Invoice_create_cases env kwargs w)
    as [[e H]|[(e & xpub & amount & description & H)
              |[(e & xpub & amount & description & data_got & address & uri
                 & _ & _ & _ & Hins & H)
               |(xpub & amount & description & data_got & address & uri
                 & _ & _ & _ & Hins & H)]]];
    rewrite H; cbn [snd fst].
  - now left.
  - right; left. exists xpub, amount, description.
    split; [reflexivity|]. now exists e.
  - right; left. exists xpub, amount, description.
    destruct (Invoice_insert_refused _
                (after_request xpub amount description w) _ Hins)
      as (_ & _ & ->).
    split; [reflexivity|]. now exists e.
  - right; right. eexists xpub, amount, description, _.
    destruct (Invoice_insert_accepted _
                (after_request xpub amount description w) Hins)
      as (_ & _ & ->).
    split; [|reflexivity]. cbn. now rewrite <- app_assoc.
Qed.

(** ** Referential actions *)

Lemma omap_total {A B : Type} (f : A -> option B) (g : A -> B)
    (l : list A) :
  (forall x, f x = Some (g x)) -> omap f l = map g l.
Proof.
  intros Hfg. induction l as [|x l IH]; [reflexivity|].
  cbn. rewrite Hfg. cbn. now f_equal.
Qed.

Lemma omap_cascade {A : Type} (f : A -> option A) (keep : A -> bool)
    (l : list A) :
  (forall x, f x = if keep x then Some x else None) ->
  omap f l = List.filter keep l.
Proof.
  intros Hf. induction l as [|x l IH]; [reflexivity|].
  cbn. rewrite Hf. destruct (keep x); cbn; now rewrite IH.
Qed.

(** X7. The tokens of a deleted user go with the user (ON DELETE
    CASCADE) and the tokens of other users stay; the wallets all stay,
    those of the deleted user with a NULL user id (ON DELETE SET NULL). *)
Lemma User_delete_tokens_and_wallets (id : Z) (d : Database) :
  tokens (User_delete id d) =
    List.filter (fun t => negb (refers (token_user_id t) id)) (tokens d) /\
  wallets (User_delete id d) =
    (fun x => if refers (wallet_user_id x) id
              then mkWallet (wallet_id x) (wallet_name x) (wallet_xpub x)
                            (wallet_balance x) None
              else x) <$> wallets d.
Proof.
  split.
  - cbn. apply omap_cascade. intros t. unfold referential_action. cbn.
    now destruct (refers _ _).
  - cbn. apply map_eq. intros k.
    rewrite lookup_omap, lookup_fmap.
    destruct (wallets d !! k) as [x|]; [|reflexivity].
    cbn. unfold referential_action. cbn. now destruct (refers _ _).
Qed.

(** C3, as amended. Deleting a product or an invoice deletes no join row:
    both foreign keys of the join table are declared ON DELETE SET NULL,
    so every join row stays, and the rows that referred to the deleted
    product (invoice) have their product id (invoice id) set to NULL. *)
Theorem ProductxInvoice_set_null_on_delete (id : Z) (d : Database) :
  fk_ondelete ProductxInvoice_product_id_fk = SET_NULL /\
  fk_ondelete ProductxInvoice_invoice_id_fk = SET_NULL /\
  productsxinvoices (Product_delete id d) =
    map (fun r => if refers (pxi_product_id r) id
                  then mkProductxInvoice None (pxi_invoice_id r) else r)
        (productsxinvoices d) /\
  productsxinvoices (Invoice_delete id d) =
    map (fun r => if refers (pxi_invoice_id r) id
                  then mkProductxInvoice (pxi_product_id r) None else r)
        (productsxinvoices d) /\
  length (productsxinvoices (Product_delete id d)) =
    length (productsxinvoices d) /\
  length (productsxinvoices (Invoice_delete id d)) =
    length (productsxinvoices d).
Proof.
  assert (productsxinvoices (Product_delete id d) =
          map (fun r => if refers (pxi_product_id r) id
                        then mkProductxInvoice None (pxi_invoice_id r)
                        else r)
              (productsxinvoices d)) as Hp.
  { cbn. apply omap_total. intros r. unfold referential_action. cbn.
    now destruct (refers _ _). }
  assert (productsxinvoices (Invoice_delete id d) =
          map (fun r => if refers (pxi_invoice_id r) id
                        then mkProductxInvoice (pxi_product_id r) None
                        else r)
              (productsxinvoices d)) as Hi.
  { cbn. apply omap_total. intros r. unfold referential_action. cbn.
    now destruct (refers _ _). }
  split; [reflexivity|]. split; [reflexivity|].
  split; [exact Hp|]. split; [exact Hi|].
  rewrite Hp, Hi. now rewrite !length_map.
Qed.

(** ** Tokens and their users *)




(** X8. A token issued for a user does not survive the deletion of that
    user: after [Token.create(user)] and the deletion of the user, the
    tokens are those other users had before. *)
Theorem Token_create_then_User_delete (user : User) (w : World) :
  tokens (User_delete (user_id user) (db (snd (Token_create user w)))) =
    List.filter (fun t => negb (refers (token_user_id t) (user_id user)))
                (tokens (db w)).
Proof.
  cbv [Token_create bind os_urandom utils_now Token_insert]. cbn.
  rewrite (omap_cascade _
             (fun t => negb (refers (token_user_id t) (user_id user)))).
  - rewrite List.filter_app. cbn. rewrite Z.eqb_refl. cbn.
    apply app_nil_r.
  - intros t. unfold referential_action. cbn. now destruct (refers _ _).
Qed.

(** ** Stores, products and the wallet service *)

(** X16. Stores survive the deletion of their wallet and products the
    deletion of their store: the foreign keys are declared ON DELETE SET
    NULL, so the deleted row goes, every referencing row stays under its
    key, and its reference becomes NULL. *)
Theorem Wallet_and_Store_delete_set_null (id : Z) (d : Database) :
  fk_ondelete Store_wallet_id_fk = SET_NULL /\
  fk_ondelete Product_store_id_fk = SET_NULL /\
  wallets (Wallet_delete id d) = delete id (wallets d) /\
  stores (Wallet_delete id d) = unlink_wallet id <$> stores d /\
  stores (Store_delete id d) = delete id (stores d) /\
  products (Store_delete id d) = unlink_store id <$> products d /\
  dom (stores (Wallet_delete id d)) = dom (stores d) /\
  dom (products (Store_delete id d)) = dom (products d).
Proof.
  assert (stores (Wallet_delete id d) = unlink_wallet id <$> stores d)
    as Hstores.
  { cbn. apply map_eq. intros k. rewrite lookup_omap, lookup_fmap.
    destruct (stores d !! k) as [x|]; [|reflexivity].
    cbn. unfold referential_action, unlink_wallet. cbn.
    now destruct (refers _ _). }
  assert (products (Store_delete id d) = unlink_store id <$> products d)
    as Hproducts.
  { cbn. apply map_eq. intros k. rewrite lookup_omap, lookup_fmap.
    destruct (products d !! k) as [x|]; [|reflexivity].
    cbn. unfold referential_action, unlink_store. cbn.
    now destruct (refers _ _). }
  do 3 (split; [reflexivity|]).
  split; [exact Hstores|]. split; [reflexivity|].
  split; [exact Hproducts|].
  rewrite Hstores, Hproducts. now rewrite !dom_fmap_L.
Qed.

(** ** Invoice creation after a deletion *)

Lemma find_row_wallets_User_delete (uid : Z) (d : Database) (v : value) :
  find_row (wallets (User_delete uid d)) v =
    match find_row (wallets d) v with
    | Ok o => Ok (disown uid <$> o)
    | Raise e => Raise e
    end.
Proof.
  destruct v as [|z|s|l]; try reflexivity.
  cbn. rewrite lookup_omap.
  destruct (wallets d !! z) as [x|]; cbn.
  - unfold referential_action, disown. cbn. now destruct (refers _ _).
  - now destruct (is_int32 z).
Qed.

Lemma wallet_xpub_disown (uid : Z) (x : Wallet) :
  wallet_xpub (disown uid x) = wallet_xpub x.
Proof. unfold disown. now destruct (refers _ _). Qed.

(** X9. Deleting a link of the chain makes [Invoice.create] fail with the
    422 of that link and write nothing: after the first product, whose id
    is a 32-bit integer, is deleted, the product does not exist; after
    its store is deleted, the product's store id is NULL and the message
    names store [None]; after the store's wallet is deleted, the store's
    wallet id is NULL and no wallet is linked. *)
Theorem Invoice_create_after_chain_delete (env : Env)
    (kwargs : gmap string value) (w : World) (first : Z) (rest : list Z) :
  kwargs !! "products" = Some (VList (first :: rest)) ->
  (is_int32 first = true ->
   Invoice_create env kwargs (set_db (Product_delete first (db w)) w) =
     (Raise (HTTPException 422
               ("Product " +:+ str_int first +:+ " doesn't exist!")),
      set_db (Product_delete first (db w)) w)) /\
  (forall product sid,
     products (db w) !! first = Some product ->
     product_store_id product = Some sid ->
     Invoice_create env kwargs (set_db (Store_delete sid (db w)) w) =
       (Raise (HTTPException 422 "Store None doesn't exist!"),
        set_db (Store_delete sid (db w)) w)) /\
  (forall product sid store wid,
     products (db w) !! first = Some product ->
     product_store_id product = Some sid ->
     stores (db w) !! sid = Some store ->
     store_wallet_id store = Some wid ->
     Invoice_create env kwargs (set_db (Wallet_delete wid (db w)) w) =
       (Raise (HTTPException 422 "No wallet linked"),
        set_db (Wallet_delete wid (db w)) w)).
Proof.
  intros Hps. split; [|split].
  - intros Hrange.
    rewrite (Invoice_create_chain env kwargs _ first rest Hps).
    unfold chain_outcome. cbn [find_row].
    replace (products (db (set_db (Product_delete first (db w)) w))
               !! first) with (@None Product)
      by (symmetry; cbn; apply lookup_delete_eq).
    now rewrite Hrange.
  - intros product sid Hp Hsid.
    rewrite (Invoice_create_chain env kwargs _ first rest Hps).
    unfold chain_outcome. cbn [find_row].
    replace (products (db (set_db (Store_delete sid (db w)) w)) !! first)
      with (Some (mkProduct (product_id product) (product_amount product)
                    (product_quantity product) (product_title product)
                    (product_date product) (product_description product)
                    (product_image product) None (product_status product))).
    + reflexivity.
    + symmetry. cbn. rewrite lookup_omap, Hp. cbn.
      unfold referential_action. rewrite Hsid. cbn.
      now rewrite Z.eqb_refl.
  - intros product sid store wid Hp Hsid Hs Hwid.
    rewrite (Invoice_create_chain env kwargs _ first rest Hps).
    unfold chain_outcome. cbn [find_row].
    replace (products (db (set_db (Wallet_delete wid (db w)) w)) !! first)
      with (Some product) by (symmetry; exact Hp).
    rewrite Hsid. cbn [to_value find_row].
    replace (stores (db (set_db (Wallet_delete wid (db w)) w)) !! sid)
      with (Some (mkStore (store_id store) (store_name store)
                    (store_domain store) (store_template store)
                    (store_email store) None (store_email_host store)
                    (store_email_password store) (store_email_port store)
                    (store_email_use_ssl store) (store_email_user store))).
    + reflexivity.
    + symmetry. cbn. rewrite lookup_omap, Hs. cbn.
      unfold referential_action. rewrite Hwid. cbn.
      now rewrite Z.eqb_refl.
Qed.

(** X10. Deleting a user changes nothing for invoice creation: the wallets
    of the user stay, with their xpub, so the call ends with the same
    exception or returns the same invoice and xpub as it would have with
    the user still there. *)
Theorem Invoice_create_after_User_delete (env : Env)
    (kwargs : gmap string value) (w : World) (uid : Z) :
  fst (Invoice_create env kwargs (set_db (User_delete uid (db w)) w)) =
  fst (Invoice_create env kwargs w).
Proof.
  set (w2 := set_db (User_delete uid (db w)) w).
  destruct (kwargs !! "products") as [ps|] eqn:Hps.
  2:{ now rewrite !Invoice_create_no_products_key by assumption. }
  destruct (truthy ps) eqn:Htruthy.
  2:{ now rewrite !(Invoice_create_falsy env kwargs _ ps Hps Htruthy). }
  destruct ps as [|z|s|[|first rest]]; try discriminate Htruthy.
  1,2: destruct (Invoice_create_not_a_list env kwargs _ Hps Htruthy)
         as [e He]; [intros ids; discriminate|];
       now rewrite !He.
  rewrite !(Invoice_create_chain env kwargs _ first rest Hps).
  unfold chain_outcome.
  change (products (db w2)) with (products (db w)).
  change (stores (db w2)) with (stores (db w)).
  change (wallets (db w2)) with (wallets (User_delete uid (db w))).
  destruct (find_row (products (db w)) (VNum first)) as [[product|]|e];
    try reflexivity.
  destruct (find_row (stores (db w)) _) as [[store|]|e]; try reflexivity.
  rewrite find_row_wallets_User_delete.
  destruct (find_row (wallets (db w)) _) as [[wallet|]|e]; try reflexivity.
  cbn [fmap option_fmap option_map].
  destruct (kwargs !! "amount") as [amount|]; [|reflexivity].
  unfold request_outcome. cbv zeta. rewrite wallet_xpub_disown.
  destruct (addrequest _ _ _ _ _) as [data_got|e]; [|reflexivity].
  destruct (data_got !! "address") as [address|]; [|reflexivity].
  destruct (data_got !! "URI") as [uri|]; [|reflexivity].
  change (Invoice_insert_error (invoice_columns kwargs address uri) (db w2))
    with (Invoice_insert_error (invoice_columns kwargs address uri) (db w)).
  change (Invoice_new_id (invoice_columns kwargs address uri) (db w2))
    with (Invoice_new_id (invoice_columns kwargs address uri) (db w)).
  now destruct (Invoice_insert_error _ _).
Qed.

(** ** Fields and columns *)

Lemma find_negb_None {A : Type} (f : A -> bool) (l : list A) :
  List.find (fun x => negb (f x)) l = None <-> forallb f l = true.
Proof.
  induction l as [|x l IH]; [easy|]. cbn.
  destruct (f x); cbn; [exact IH|easy].
Qed.

Lemma first_non_column_None (fields : gmap string value) :
  first_non_column fields = None <-> only_columns fields = true.
Proof.
  unfold first_non_column, only_columns.
  rewrite <- (find_negb_None (fun kv => is_column (fst kv))).
  destruct (List.find _ _); cbn; split; congruence.
Qed.

Lemma first_non_column_Some (fields : gmap string value) (key : string) :
  first_non_column fields = Some key ->
  is_column key = false /\ is_Some (fields !! key).
Proof.
  unfold first_non_column.
  destruct (List.find _ _) as [[k v]|] eqn:Hfind; [|discriminate].
  intros [= <-]. apply find_some in Hfind as [Hin Hk]. cbn [fst] in *.
  split; [now apply negb_true_iff in Hk|].
  exists v. apply elem_of_map_to_list. now apply list_elem_of_In.
Qed.

Lemma only_columns_lookup (fields : gmap string value) (key : string) :
  only_columns fields = true -> is_Some (fields !! key) ->
  is_column key = true.
Proof.
  unfold only_columns. rewrite forallb_forall. intros Hall [v Hv].
  apply (Hall (key, v)). apply list_elem_of_In.
  now apply elem_of_map_to_list.
Qed.

(** A field that is no column makes the generic update raise. *)
Lemma first_non_column_found (fields : gmap string value) (key : string) :
  is_Some (fields !! key) -> is_column key = false ->
  exists key', first_non_column fields = Some key'.
Proof.
  intros Hkey Hcol.
  destruct (first_non_column fields) as [key'|] eqn:Hfirst;
    [now exists key'|].
  apply first_non_column_None in Hfirst.
  rewrite (only_columns_lookup fields key Hfirst Hkey) in Hcol.
  discriminate Hcol.
Qed.

Lemma first_non_column_products (fields : gmap string value) (v : value) :
  fields !! "products" = Some v ->
  only_columns (delete "products" fields) = true ->
  first_non_column fields = Some "products".
Proof.
  intros Hps Hothers.
  destruct (first_non_column_found fields "products") as [key Hkey];
    [now exists v|reflexivity|].
  rewrite Hkey. f_equal.
  apply first_non_column_Some in Hkey as [Hcol [v' Hv']].
  destruct (decide (key = "products")) as [->|Hne]; [reflexivity|].
  rewrite (only_columns_lookup (delete "products" fields) key Hothers)
    in Hcol; [discriminate Hcol|].
  exists v'. now rewrite lookup_delete_ne.
Qed.

(** ** The update request *)

Lemma UpdateRequest_update_ok (self : UpdateRequest)
    (values : gmap string value) :
  only_columns values = true ->
  UpdateRequest_update self values =
    Ok (mkUpdateRequest
          (mkInvoice (updated_id (invoice_id (_instance self)) values)
                     (values ∪ invoice_values (_instance self))
                     (invoice_products (_instance self)))
          (values ∪ _values self) (_locator self) (self_products self)).
Proof.
  intros Hcols. apply first_non_column_None in Hcols.
  unfold UpdateRequest_update. now rewrite Hcols.
Qed.

Lemma UpdateRequest_update_raises (self : UpdateRequest)
    (values : gmap string value) (key : string) :
  first_non_column values = Some key ->
  UpdateRequest_update self values = Raise (KeyError key).
Proof. intros Hkey. unfold UpdateRequest_update. now rewrite Hkey. Qed.

Lemma UpdateRequest_update_ok_inv (self request : UpdateRequest)
    (values : gmap string value) :
  UpdateRequest_update self values = Ok request ->
  only_columns values = true /\
  request =
    mkUpdateRequest
      (mkInvoice (updated_id (invoice_id (_instance self)) values)
                 (values ∪ invoice_values (_instance self))
                 (invoice_products (_instance self)))
      (values ∪ _values self) (_locator self) (self_products self).
Proof.
  unfold UpdateRequest_update.
  destruct (first_non_column values) eqn:Hfirst; [discriminate|].
  intros [= <-]. split; [now apply first_non_column_None|reflexivity].
Qed.

(** A non-empty list is taken out of the fields. *)
Lemma MyUpdateRequest_update_list (self : UpdateRequest)
    (kwargs : gmap string value) (first : Z) (rest : list Z) :
  kwargs !! "products" = Some (VList (first :: rest)) ->
  MyUpdateRequest_update self kwargs =
    UpdateRequest_update
      (mkUpdateRequest (_instance self) (_values self) (_locator self)
                       (Some (VList (first :: rest))))
      (delete "products" kwargs).
Proof. intros Hps. unfold MyUpdateRequest_update. now rewrite Hps. Qed.

(** A falsy [products] entry stays among the fields. *)
Lemma MyUpdateRequest_update_falsy (self : UpdateRequest)
    (kwargs : gmap string value) (ps : value) :
  kwargs !! "products" = Some ps ->
  truthy ps = false ->
  MyUpdateRequest_update self kwargs =
    UpdateRequest_update
      (mkUpdateRequest (_instance self) (_values self) (_locator self)
                       (Some ps))
      kwargs.
Proof.
  intros Hps Hfalsy. unfold MyUpdateRequest_update. rewrite Hps. cbn.
  now rewrite Hfalsy.
Qed.

(** An update that omits [products] leaves [None] in the attribute and
    passes every field on. *)
Lemma MyUpdateRequest_update_omitted (self : UpdateRequest)
    (kwargs : gmap string value) :
  kwargs !! "products" = None ->
  MyUpdateRequest_update self kwargs =
    UpdateRequest_update
      (mkUpdateRequest (_instance self) (_values self) (_locator self)
                       (Some VNone))
      kwargs.
Proof. intros Hps. unfold MyUpdateRequest_update. now rewrite Hps. Qed.

(** A falsy [products] entry makes [update] raise. *)
Lemma MyUpdateRequest_update_falsy_raises (self : UpdateRequest)
    (kwargs : gmap string value) (ps : value) :
  kwargs !! "products" = Some ps ->
  truthy ps = false ->
  exists key,
    first_non_column kwargs = Some key /\
    MyUpdateRequest_update self kwargs = Raise (KeyError key).
Proof.
  intros Hps Hfalsy.
  destruct (first_non_column_found kwargs "products") as [key Hkey];
    [now exists ps|reflexivity|].
  exists key. split; [exact Hkey|].
  rewrite (MyUpdateRequest_update_falsy self kwargs ps Hps Hfalsy).
  now apply UpdateRequest_update_raises.
Qed.

(** What a request that [update] returned holds. *)
Lemma MyUpdateRequest_update_ok_inv (self request : UpdateRequest)
    (kwargs : gmap string value) :
  MyUpdateRequest_update self kwargs = Ok request ->
  self_products request = Some (default VNone (kwargs !! "products")) /\
  _locator request = _locator self /\
  invoice_id (_instance request) =
    updated_id (invoice_id (_instance self)) kwargs /\
  (kwargs !! "id" = None -> _values self !! "id" = None ->
   _values request !! "id" = None) /\
  (forall ps, kwargs !! "products" = Some ps -> truthy ps = true).
Proof.
  unfold MyUpdateRequest_update. intros Hupdate.
  apply UpdateRequest_update_ok_inv in Hupdate as [Hcols ->].
  cbn [self_products _locator _instance _values invoice_id].
  split; [reflexivity|]. split; [reflexivity|].
  assert ((if truthy (default VNone (kwargs !! "products"))
           then delete "products" kwargs else kwargs) !! "id" =
          kwargs !! "id") as Hid.
  { destruct (truthy _); [|reflexivity]. now apply lookup_delete_ne. }
  split; [unfold updated_id; now rewrite Hid|].
  split.
  { intros Hnone Hself. apply lookup_union_None. now rewrite Hid. }
  intros ps Hps. rewrite Hps in Hcols.
  change (default VNone (Some ps)) with ps in Hcols.
  destruct (truthy ps) eqn:Htruthy; [reflexivity|].
  pose proof (only_columns_lookup kwargs "products" Hcols) as Hcol.
  discriminate Hcol. now exists ps.
Qed.

(** ** The join rows of an invoice *)

Lemma after_inserts_nil (w : World) : after_inserts [] w = w.
Proof.
  destruct w as [[] ? ? ? ?]. unfold after_inserts, set_productsxinvoices.
  cbn. now rewrite !app_nil_r.
Qed.

Lemma after_inserts_cons (r : ProductxInvoice) (rows : list ProductxInvoice)
    (w : World) :
  after_inserts rows (after_inserts [r] w) = after_inserts (r :: rows) w.
Proof.
  unfold after_inserts, set_productsxinvoices. cbn.
  now rewrite <- !app_assoc.
Qed.

Lemma ProductxInvoice_delete_ok (id : Z) (w : World) :
  is_int32 id = true ->
  ProductxInvoice_delete_where_invoice_id id w = (Ok tt, after_delete id w) /\
  db (after_delete id w) =
    set_productsxinvoices (other_join_rows id (productsxinvoices (db w)))
      (db w) /\
  trace (after_delete id w) = trace w ++ [DeleteJoinRows id].
Proof.
  intros Hrange.
  unfold after_delete, ProductxInvoice_delete_where_invoice_id.
  rewrite Hrange. repeat split.
Qed.

Lemma ProductxInvoice_delete_refused (id : Z) (w : World) :
  is_int32 id = false ->
  ProductxInvoice_delete_where_invoice_id id w =
    (Raise (DataError "invalid input for query argument"), w).
Proof.
  intros Hrange. unfold ProductxInvoice_delete_where_invoice_id.
  now rewrite Hrange.
Qed.

Lemma join_row_error_frame (d d' : Database) (id : Z) (i : value) :
  products d' = products d ->
  invoice_exists id d' = invoice_exists id d ->
  join_row_error d' id i = join_row_error d id i.
Proof.
  intros Hproducts Hexists. unfold join_row_error.
  now rewrite Hproducts, Hexists.
Qed.

Lemma accepted_products_frame (d d' : Database) (id : Z) (ids : list Z) :
  products d' = products d ->
  invoice_exists id d' = invoice_exists id d ->
  accepted_products d' id ids = accepted_products d id ids.
Proof.
  intros Hproducts Hexists. induction ids as [|p ids IH]; [reflexivity|].
  cbn [accepted_products].
  rewrite (join_row_error_frame d d' id (VNum p) Hproducts Hexists).
  now rewrite IH.
Qed.

Lemma accepted_products_all (d : Database) (id : Z) (ids : list Z) :
  all_products ids d = true ->
  invoice_exists id d = true ->
  accepted_products d id ids = ids.
Proof.
  intros Hall Hexists. induction ids as [|p ids IH]; [reflexivity|].
  cbn [all_products forallb] in Hall. apply andb_true_iff in Hall as [Hp Hall].
  cbn [accepted_products]. unfold join_row_error. rewrite Hexists.
  destruct (products d !! p); [|discriminate Hp]. cbn.
  f_equal. now apply IH.
Qed.

Lemma ProductxInvoice_create_accepted (id p : Z) (w : World) :
  join_row_error (db w) id (VNum p) = None ->
  ProductxInvoice_create id (VNum p) w =
    (Ok tt, after_inserts [mkProductxInvoice (Some p) (Some id)] w).
Proof.
  intros Herror. unfold ProductxInvoice_create. now rewrite Herror.
Qed.

Lemma ProductxInvoice_create_refused (id : Z) (i : value) (w : World)
    (e : exn) :
  join_row_error (db w) id i = Some e ->
  ProductxInvoice_create id i w = (Raise e, w).
Proof.
  intros Herror. unfold ProductxInvoice_create. now rewrite Herror.
Qed.

(** The loop over a list of product ids inserts the join rows of the ids
    the database takes and stops at the first it refuses. *)
Lemma for_each_join_rows (id : Z) (ids : list Z) (w : World) :
  exists r,
    for_each (map VNum ids) (ProductxInvoice_create id) w =
      (r, after_inserts (join_rows id (accepted_products (db w) id ids)) w) /\
    (accepted_products (db w) id ids = ids -> r = Ok tt).
Proof.
  revert w. induction ids as [|p ids IH]; intros w.
  - exists (Ok tt). cbn. now rewrite after_inserts_nil.
  - cbn [map for_each accepted_products].
    destruct (join_row_error (db w) id (VNum p)) as [e|] eqn:Herror.
    + exists (Raise e).
      rewrite (bind_raise _ _ w w e
                 (ProductxInvoice_create_refused id (VNum p) w e Herror)).
      cbn [join_rows map]. rewrite after_inserts_nil.
      split; [reflexivity|discriminate].
    + rewrite (bind_ok _ _ w _ tt
                 (ProductxInvoice_create_accepted id p w Herror)).
      destruct (IH (after_inserts [mkProductxInvoice (Some p) (Some id)] w))
        as (r & Hrun & Hall).
      rewrite (accepted_products_frame (db w)) in Hrun, Hall
        by reflexivity.
      exists r. rewrite Hrun. cbn [join_rows map].
      rewrite after_inserts_cons. split; [reflexivity|].
      intros [= Heq]. now apply Hall.
Qed.

Lemma for_each_join_rows_ok (id : Z) (ids : list Z) (w : World) :
  accepted_products (db w) id ids = ids \/
  exists e,
    fst (for_each (map VNum ids) (ProductxInvoice_create id) w) = Raise e.
Proof.
  revert w. induction ids as [|p ids IH]; intros w; [now left|].
  cbn [map for_each accepted_products].
  destruct (join_row_error (db w) id (VNum p)) as [e|] eqn:Herror.
  - right. exists e.
    now rewrite (bind_raise _ _ w w e
                   (ProductxInvoice_create_refused id (VNum p) w e Herror)).
  - rewrite (bind_ok _ _ w _ tt
               (ProductxInvoice_create_accepted id p w Herror)).
    destruct (IH (after_inserts [mkProductxInvoice (Some p) (Some id)] w))
      as [Hall|Hraise].
    + left. rewrite (accepted_products_frame (db w)) in Hall by reflexivity.
      now rewrite Hall.
    + now right.
Qed.

(** Whatever the loop is given, the rows it inserts are rows of the
    invoice. *)
Lemma for_each_create_world (id : Z) (items : list value) (w : World) :
  exists rows,
    Forall (fun r => pxi_invoice_id r = Some id) rows /\
    snd (for_each items (ProductxInvoice_create id) w) =
      after_inserts rows w.
Proof.
  revert w. induction items as [|i items IH]; intros w.
  - exists []. split; [constructor|]. cbn. now rewrite after_inserts_nil.
  - cbn [for_each].
    destruct (join_row_error (db w) id i) as [e|] eqn:Herror.
    + exists []. split; [constructor|].
      rewrite (bind_raise _ _ w w e
                 (ProductxInvoice_create_refused id i w e Herror)).
      cbn. now rewrite after_inserts_nil.
    + set (r := mkProductxInvoice
                  (match i with VNum z => Some z | _ => None end) (Some id)).
      assert (ProductxInvoice_create id i w = (Ok tt, after_inserts [r] w))
        as Hcreate
        by (unfold ProductxInvoice_create; now rewrite Herror).
      rewrite (bind_ok _ _ w _ tt Hcreate).
      destruct (IH (after_inserts [r] w)) as (rows & Hrows & Hrun).
      exists (r :: rows). split; [now constructor|].
      rewrite Hrun. apply after_inserts_cons.
Qed.

(** ** The column update *)

Lemma UpdateRequest_apply_ok (self : UpdateRequest) (w : World) :
  update_error (_locator self) (_values self) (db w) = None ->
  UpdateRequest_apply self w =
    (Ok self, after_update (_locator self) (_values self) w).
Proof.
  unfold update_error, UpdateRequest_apply, after_update. cbv zeta.
  destruct (map_to_list (_values self)); [discriminate|].
  destruct (update_client_error _ _); [discriminate|].
  destruct (negb (invoice_exists _ _)); [discriminate|].
  now intros ->.
Qed.

Lemma UpdateRequest_apply_world (self : UpdateRequest) (w : World) :
  snd (UpdateRequest_apply self w) = w \/
  snd (UpdateRequest_apply self w) =
    log (UpdateInvoice (_locator self) (_values self)) w \/
  snd (UpdateRequest_apply self w) =
    after_update (_locator self) (_values self) w.
Proof.
  unfold UpdateRequest_apply, after_update. cbv zeta.
  destruct (map_to_list (_values self)); [now left|].
  destruct (update_client_error _ _); [now left|].
  destruct (negb (invoice_exists _ _)); [now right; left|].
  destruct (update_server_error _ _ _); [now left|now right; right].
Qed.

Lemma update_error_frame (loc : Z) (vals : gmap string value)
    (d d' : Database) :
  invoices d' = invoices d ->
  vals !! "id" = None ->
  update_error loc vals d' = update_error loc vals d.
Proof.
  intros Hinvoices Hid.
  unfold update_error, update_server_error, invoice_exists.
  now rewrite Hinvoices, Hid.
Qed.

Lemma update_error_columns (loc : Z) (vals : gmap string value)
    (d : Database) :
  update_error loc vals d = None ->
  only_columns vals = true /\ is_int32 loc = true /\
  invoice_exists loc d = true.
Proof.
  unfold update_error, update_client_error.
  destruct (map_to_list vals); [discriminate|].
  destruct (first_non_column vals) eqn:Hfirst; [discriminate|].
  apply first_non_column_None in Hfirst.
  destruct (is_int32 loc); [|discriminate]. cbn [andb].
  destruct (forallb _ _); [|discriminate].
  destruct (invoice_exists loc d); [|discriminate].
  now intros _.
Qed.

Lemma updated_rows_ids (loc : Z) (vals : gmap string value)
    (rows : list InvoiceRow) :
  vals !! "id" = None ->
  map row_id
      (map (fun r => if row_id r =? loc
                     then mkInvoiceRow (updated_id loc vals)
                                       (vals ∪ row_values r)
                     else r) rows) =
  map row_id rows.
Proof.
  intros Hid. unfold updated_id. rewrite Hid.
  induction rows as [|r rows IH]; [reflexivity|]. cbn [map].
  rewrite IH. f_equal.
  destruct (row_id r =? loc) eqn:Hr; [|reflexivity].
  cbn. symmetry. now apply Z.eqb_eq.
Qed.

Lemma invoice_exists_ids (id : Z) (d d' : Database) :
  map row_id (invoices d') = map row_id (invoices d) ->
  invoice_exists id d' = invoice_exists id d.
Proof.
  unfold invoice_exists. intros Hids.
  assert (forall rows,
            existsb (fun r => row_id r =? id) rows =
            existsb (fun z => z =? id) (map row_id rows)) as Hmap.
  { induction rows as [|r rows IH]; [reflexivity|]. cbn. now rewrite IH. }
  now rewrite !Hmap, Hids.
Qed.

Lemma updated_rows_others (loc : Z) (vals : gmap string value)
    (rows : list InvoiceRow) (n : nat) (r : InvoiceRow) :
  nth_error rows n = Some r ->
  row_id r <> loc ->
  nth_error
    (map (fun r => if row_id r =? loc
                   then mkInvoiceRow (updated_id loc vals)
                                     (vals ∪ row_values r)
                   else r) rows) n = Some r.
Proof.
  intros Hn Hne. rewrite nth_error_map, Hn. cbn.
  apply Z.eqb_neq in Hne. now rewrite Hne.
Qed.

(** ** Applying an update *)

(** [apply], step by step. *)
Lemma MyUpdateRequest_apply_steps (self : UpdateRequest) (w : World) :
  is_int32 (invoice_id (_instance self)) = true ->
  MyUpdateRequest_apply self w =
    match self_products self with
    | None =>
        (Raise (AttributeError "products"),
         after_delete (invoice_id (_instance self)) w)
    | Some ps =>
        match py_iter ps (after_delete (invoice_id (_instance self)) w) with
        | (Raise e, w1) => (Raise e, w1)
        | (Ok items, w1) =>
            match for_each items
                    (ProductxInvoice_create (invoice_id (_instance self)))
                    w1 with
            | (Raise e, w2) => (Raise e, w2)
            | (Ok _, w2) =>
                UpdateRequest_apply (with_instance_products self ps) w2
            end
        end
    end.
Proof.
  intros Hrange. unfold MyUpdateRequest_apply. cbv zeta.
  destruct (ProductxInvoice_delete_ok _ w Hrange) as (Hdelete & _).
  rewrite (bind_ok _ _ w _ tt Hdelete). unfold with_instance_products.
  destruct (self_products self) as [ps|]; reflexivity.
Qed.

Lemma MyUpdateRequest_apply_out_of_range (self : UpdateRequest)
    (w : World) :
  is_int32 (invoice_id (_instance self)) = false ->
  MyUpdateRequest_apply self w =
    (Raise (DataError "invalid input for query argument"), w).
Proof.
  intros Hrange. unfold MyUpdateRequest_apply. cbv zeta.
  now rewrite (bind_raise _ _ w w _
                 (ProductxInvoice_delete_refused _ w Hrange)).
Qed.

Lemma py_iter_world (ps : value) (w : World) :
  snd (py_iter ps w) = w.
Proof. now destruct ps. Qed.

(** With [None] in the [products] attribute, [apply] deletes the join rows
    of the invoice and then fails on the iteration: nothing is inserted
    and the column update is not reached. *)
Lemma MyUpdateRequest_apply_none (self : UpdateRequest) (w : World) :
  self_products self = Some VNone ->
  is_int32 (invoice_id (_instance self)) = true ->
  MyUpdateRequest_apply self w =
    (Raise (TypeError "'NoneType' object is not iterable"),
     after_delete (invoice_id (_instance self)) w).
Proof.
  intros Hps Hrange. rewrite MyUpdateRequest_apply_steps by assumption.
  now rewrite Hps.
Qed.

(** With a list in the [products] attribute: the join rows of the invoice
    are deleted, those of the ids the database takes are inserted, and
    the column update follows when every id was taken. *)
Lemma MyUpdateRequest_apply_list (self : UpdateRequest) (ids : list Z)
    (w : World) :
  self_products self = Some (VList ids) ->
  is_int32 (invoice_id (_instance self)) = true ->
  (accepted_products (db w) (invoice_id (_instance self)) ids = ids ->
   MyUpdateRequest_apply self w =
     UpdateRequest_apply (with_instance_products self (VList ids))
       (after_inserts (join_rows (invoice_id (_instance self)) ids)
          (after_delete (invoice_id (_instance self)) w))) /\
  (accepted_products (db w) (invoice_id (_instance self)) ids <> ids ->
   exists e,
     MyUpdateRequest_apply self w =
       (Raise e,
        after_inserts
          (join_rows (invoice_id (_instance self))
             (accepted_products (db w) (invoice_id (_instance self)) ids))
          (after_delete (invoice_id (_instance self)) w))).
Proof.
  intros Hps Hrange. rewrite MyUpdateRequest_apply_steps by assumption.
  rewrite Hps. cbn [py_iter]. unfold ret.
  destruct (ProductxInvoice_delete_ok _ w Hrange) as (_ & Hdb & _).
  destruct (for_each_join_rows (invoice_id (_instance self)) ids
              (after_delete (invoice_id (_instance self)) w))
    as (r & Hrun & Hall).
  rewrite (accepted_products_frame (db w)) in Hrun, Hall
    by (rewrite Hdb; reflexivity).
  rewrite Hrun. split.
  - intros Heq. rewrite (Hall Heq), Heq. reflexivity.
  - intros Hne. destruct r as [[]|e].
    + destruct (for_each_join_rows_ok (invoice_id (_instance self)) ids
                  (after_delete (invoice_id (_instance self)) w)) as [H|H].
      * rewrite (accepted_products_frame (db w)) in H
          by (rewrite Hdb; reflexivity).
        now destruct Hne.
      * destruct H as [e He]. rewrite Hrun in He. discriminate He.
    + now exists e.
Qed.

(** ** What [apply] leaves of the database *)

Lemma other_join_rows_app (id : Z) (l1 l2 : list ProductxInvoice) :
  other_join_rows id (l1 ++ l2) =
  other_join_rows id l1 ++ other_join_rows id l2.
Proof. apply List.filter_app. Qed.

Lemma other_join_rows_idem (id : Z) (rows : list ProductxInvoice) :
  other_join_rows id (other_join_rows id rows) = other_join_rows id rows.
Proof.
  induction rows as [|r rows IH]; [reflexivity|]. cbn.
  destruct (refers (pxi_invoice_id r) id) eqn:Hr; cbn; [assumption|].
  rewrite Hr. cbn. now f_equal.
Qed.

Lemma other_join_rows_own (id : Z) (rows : list ProductxInvoice) :
  Forall (fun r => pxi_invoice_id r = Some id) rows ->
  other_join_rows id rows = [].
Proof.
  induction 1 as [|r rows Hr _ IH]; [reflexivity|]. cbn.
  rewrite Hr. cbn. now rewrite Z.eqb_refl.
Qed.

Lemma join_rows_own (id : Z) (ids : list Z) :
  Forall (fun r => pxi_invoice_id r = Some id) (join_rows id ids).
Proof. induction ids as [|p ids IH]; now constructor. Qed.

Lemma filter_refers_none (id : Z) (rows : list ProductxInvoice) :
  List.filter (fun r => refers (pxi_invoice_id r) id)
    (other_join_rows id rows) = [].
Proof.
  induction rows as [|r rows IH]; [reflexivity|]. cbn.
  destruct (refers (pxi_invoice_id r) id) eqn:Hr; cbn; [assumption|].
  now rewrite Hr.
Qed.

Lemma filter_refers_join_rows (id : Z) (ids : list Z) :
  List.filter (fun r => refers (pxi_invoice_id r) id) (join_rows id ids) =
  join_rows id ids.
Proof.
  induction ids as [|p ids IH]; [reflexivity|]. cbn.
  rewrite Z.eqb_refl. now f_equal.
Qed.

(** The deletion changes the join table only, and there the rows of the
    invoice only. *)
Lemma after_delete_db (id : Z) (w : World) :
  exists rows,
    db (after_delete id w) = set_productsxinvoices rows (db w) /\
    other_join_rows id rows = other_join_rows id (productsxinvoices (db w)).
Proof.
  unfold after_delete, ProductxInvoice_delete_where_invoice_id.
  destruct (is_int32 id).
  - eexists. split; [reflexivity|]. apply other_join_rows_idem.
  - exists (productsxinvoices (db w)). split; [|reflexivity].
    cbn. now destruct (db w).
Qed.

(** The world [apply] leaves: the join rows of the invoice are deleted
    and some rows of the invoice inserted; the column update has not been
    reached, or has found no row, or has been made. *)
Lemma MyUpdateRequest_apply_world (self : UpdateRequest) (w : World) :
  exists rows,
    Forall (fun r => pxi_invoice_id r = Some (invoice_id (_instance self)))
           rows /\
    (snd (MyUpdateRequest_apply self w) =
       after_inserts rows (after_delete (invoice_id (_instance self)) w) \/
     snd (MyUpdateRequest_apply self w) =
       log (UpdateInvoice (_locator self) (_values self))
         (after_inserts rows
            (after_delete (invoice_id (_instance self)) w)) \/
     snd (MyUpdateRequest_apply self w) =
       after_update (_locator self) (_values self)
         (after_inserts rows
            (after_delete (invoice_id (_instance self)) w))).
Proof.
  destruct (is_int32 (invoice_id (_instance self))) eqn:Hrange.
  2:{ exists []. split; [constructor|]. left.
      rewrite MyUpdateRequest_apply_out_of_range by assumption.
      rewrite after_inserts_nil. unfold after_delete.
      now rewrite ProductxInvoice_delete_refused. }
  rewrite MyUpdateRequest_apply_steps by assumption.
  destruct (self_products self) as [ps|].
  2:{ exists []. split; [constructor|]. left.
      now rewrite after_inserts_nil. }
  pose proof (py_iter_world ps
                (after_delete (invoice_id (_instance self)) w)) as Hiter.
  destruct (py_iter ps _) as [[items|e] w1]; cbn [snd] in Hiter; subst w1.
  2:{ exists []. split; [constructor|]. left.
      now rewrite after_inserts_nil. }
  destruct (for_each_create_world (invoice_id (_instance self)) items
              (after_delete (invoice_id (_instance self)) w))
    as (rows & Hrows & Hrun).
  exists rows. split; [exact Hrows|].
  destruct (for_each items _ _) as [[[]|e] w2]; cbn [snd] in Hrun; subst w2.
  - apply (UpdateRequest_apply_world (with_instance_products self ps)).
  - now left.
Qed.

Lemma MyUpdateRequest_apply_db (self : UpdateRequest) (w : World) :
  other_join_rows (invoice_id (_instance self))
    (productsxinvoices (db (snd (MyUpdateRequest_apply self w)))) =
  other_join_rows (invoice_id (_instance self)) (productsxinvoices (db w)) /\
  users (db (snd (MyUpdateRequest_apply self w))) = users (db w) /\
  tokens (db (snd (MyUpdateRequest_apply self w))) = tokens (db w) /\
  wallets (db (snd (MyUpdateRequest_apply self w))) = wallets (db w) /\
  stores (db (snd (MyUpdateRequest_apply self w))) = stores (db w) /\
  products (db (snd (MyUpdateRequest_apply self w))) = products (db w) /\
  length (invoices (db (snd (MyUpdateRequest_apply self w)))) =
    length (invoices (db w)) /\
  (forall n r,
     nth_error (invoices (db w)) n = Some r ->
     row_id r <> _locator self ->
     nth_error (invoices (db (snd (MyUpdateRequest_apply self w)))) n =
       Some r) /\
  (_values self !! "id" = None ->
   map row_id (invoices (db (snd (MyUpdateRequest_apply self w)))) =
   map row_id (invoices (db w))).
Proof.
  destruct (MyUpdateRequest_apply_world self w) as (rows & Hrows & Hworld).
  destruct (after_delete_db (invoice_id (_instance self)) w)
    as (rows0 & Hdb & Hothers).
  assert (other_join_rows (invoice_id (_instance self)) (rows0 ++ rows) =
          other_join_rows (invoice_id (_instance self))
            (productsxinvoices (db w))) as Hjoin.
  { rewrite other_join_rows_app, Hothers.
    rewrite (other_join_rows_own _ rows Hrows). apply app_nil_r. }
  destruct Hworld as [->|[->| ->]];
    cbn [db log after_update after_inserts set_db set_invoices
         set_productsxinvoices productsxinvoices users tokens wallets
         stores products invoices];
    rewrite Hdb;
    cbn [set_productsxinvoices productsxinvoices users tokens wallets
         stores products invoices];
    (split; [exact Hjoin|]); do 5 (split; [reflexivity|]).
  - split; [reflexivity|]. split; [intros n r Hn _; exact Hn|reflexivity].
  - split; [reflexivity|]. split; [intros n r Hn _; exact Hn|reflexivity].
  - split; [apply length_map|].
    split; [intros n r; apply updated_rows_others|].
    apply updated_rows_ids.
Qed.

(** The join table after [apply] with a list in the [products]
    attribute. *)
Lemma MyUpdateRequest_apply_join_table (self : UpdateRequest)
    (ids : list Z) (w : World) :
  self_products self = Some (VList ids) ->
  is_int32 (invoice_id (_instance self)) = true ->
  productsxinvoices (db (snd (MyUpdateRequest_apply self w))) =
    other_join_rows (invoice_id (_instance self))
      (productsxinvoices (db w)) ++
    join_rows (invoice_id (_instance self))
      (accepted_products (db w) (invoice_id (_instance self)) ids).
Proof.
  intros Hps Hrange.
  destruct (MyUpdateRequest_apply_list self ids w Hps Hrange)
    as [Hall Hsome].
  destruct (ProductxInvoice_delete_ok _ w Hrange) as (_ & Hdb & _).
  destruct (decide (accepted_products (db w) (invoice_id (_instance self))
                      ids = ids)) as [Heq|Hne].
  - rewrite (Hall Heq), Heq.
    destruct (UpdateRequest_apply_world
                (with_instance_products self (VList ids))
                (after_inserts (join_rows (invoice_id (_instance self)) ids)
                   (after_delete (invoice_id (_instance self)) w)))
      as [->|[->| ->]];
      cbn [db log after_update after_inserts set_db set_invoices
           set_productsxinvoices productsxinvoices];
      now rewrite Hdb.
  - destruct (Hsome Hne) as [e ->]. cbn [snd].
    cbn [db after_inserts set_productsxinvoices productsxinvoices].
    now rewrite Hdb.
Qed.

(** ** Updating an invoice *)

Lemma lookup_delete_products_id (kwargs : gmap string value) :
  delete "products" kwargs !! "id" = kwargs !! "id".
Proof. now apply lookup_delete_ne. Qed.

Lemma updated_id_same (loc : Z) (vals : gmap string value) :
  vals !! "id" = None -> updated_id loc vals = loc.
Proof. intros Hid. unfold updated_id. now rewrite Hid. Qed.

(** The request a fresh [update] with a non-empty product list makes. *)
Lemma Invoice_update_list (inst : Invoice) (kwargs : gmap string value)
    (first : Z) (rest : list Z) :
  kwargs !! "products" = Some (VList (first :: rest)) ->
  kwargs !! "id" = None ->
  only_columns (delete "products" kwargs) = true ->
  Invoice_update inst kwargs =
    Ok (mkUpdateRequest
          (mkInvoice (invoice_id inst)
                     (delete "products" kwargs ∪ invoice_values inst)
                     (invoice_products inst))
          (delete "products" kwargs) (invoice_id inst)
          (Some (VList (first :: rest)))).
Proof.
  intros Hps Hid Hcols. unfold Invoice_update.
  rewrite (MyUpdateRequest_update_list _ kwargs first rest Hps).
  rewrite UpdateRequest_update_ok by assumption.
  cbn [_instance _values _locator self_products invoice_id invoice_values
       invoice_products].
  rewrite updated_id_same by (now rewrite lookup_delete_products_id).
  now rewrite (right_id_L ∅ (∪)).
Qed.

(** A fresh update with a non-empty list of products, every field a
    column the database takes, applied to an invoice that has a row. *)
Lemma Invoice_update_apply_list (inst : Invoice)
    (kwargs : gmap string value) (w : World) (first : Z) (rest : list Z) :
  kwargs !! "products" = Some (VList (first :: rest)) ->
  kwargs !! "id" = None ->
  all_products (first :: rest) (db w) = true ->
  update_error (invoice_id inst) (delete "products" kwargs) (db w) = None ->
  exists (request : UpdateRequest) (w' : World),
    Invoice_update inst kwargs = Ok request /\
    _values request = delete "products" kwargs /\
    self_products request = Some (VList (first :: rest)) /\
    Invoice_update_apply inst kwargs w =
      (Ok (with_instance_products request (VList (first :: rest))), w') /\
    trace w' =
      trace w ++
      [DeleteJoinRows (invoice_id inst)] ++
      map InsertJoinRow (join_rows (invoice_id inst) (first :: rest)) ++
      [UpdateInvoice (invoice_id inst) (delete "products" kwargs)] /\
    productsxinvoices (db w') =
      other_join_rows (invoice_id inst) (productsxinvoices (db w)) ++
      join_rows (invoice_id inst) (first :: rest) /\
    List.filter (fun r => refers (pxi_invoice_id r) (invoice_id inst))
                (productsxinvoices (db w')) =
      join_rows (invoice_id inst) (first :: rest) /\
    invoices (db w') =
      map (fun r =>
             if row_id r =? invoice_id inst
             then mkInvoiceRow (invoice_id inst)
                    (delete "products" kwargs ∪ row_values r)
             else r)
          (invoices (db w)).
Proof.
  intros Hps Hid Hall Hupdate.
  destruct (update_error_columns _ _ _ Hupdate)
    as (Hcols & Hrange & Hexists).
  pose proof (Invoice_update_list inst kwargs first rest Hps Hid Hcols)
    as Hrequest.
  set (request := mkUpdateRequest _ _ _ _) in Hrequest.
  assert ((delete "products" kwargs : gmap string value) !! "id" = None)
    as Hid' by (now rewrite lookup_delete_products_id).
  destruct (ProductxInvoice_delete_ok (invoice_id inst) w Hrange)
    as (_ & Hdb & Htrace).
  exists request. eexists. split; [exact Hrequest|].
  split; [reflexivity|]. split; [reflexivity|]. split.
  { unfold Invoice_update_apply. rewrite Hrequest.
    destruct (MyUpdateRequest_apply_list request (first :: rest) w
                eq_refl Hrange) as [Hrun _].
    rewrite Hrun by (apply accepted_products_all; assumption).
    apply UpdateRequest_apply_ok. subst request.
    cbn [with_instance_products _locator _values _instance invoice_id].
    rewrite (update_error_frame _ _ (db w)); [exact Hupdate| |exact Hid'].
    cbn [db after_inserts set_productsxinvoices invoices].
    now rewrite Hdb. }
  subst request.
  cbn [with_instance_products _locator _values _instance invoice_id
       db trace log after_update after_inserts set_db set_invoices
       set_productsxinvoices productsxinvoices invoices].
  rewrite (updated_id_same _ _ Hid'), Hdb, Htrace.
  cbn [set_productsxinvoices productsxinvoices invoices].
  split; [now rewrite <- !app_assoc|].
  split; [reflexivity|].
  split; [|reflexivity].
  rewrite List.filter_app, filter_refers_none, filter_refers_join_rows.
  reflexivity.
Qed.


(** C2. A non-empty [products] list is taken out of the fields: the
    generic column update is called with the fields without [products]
    and the list is kept on the request. The empty list is not: the guard
    of the extraction is the truth value of the list, so the generic
    column update is called with every field, [products] among them, and
    raises [KeyError] for a field that is no column, which is [products]
    when the other fields are columns. No request is made, and nothing is
    there to apply. *)
Theorem MyUpdateRequest_update_empty_list_raises (self : UpdateRequest)
    (kwargs : gmap string value) :
  (forall first rest,
     kwargs !! "products" = Some (VList (first :: rest)) ->
     MyUpdateRequest_update self kwargs =
       UpdateRequest_update
         (mkUpdateRequest (_instance self) (_values self) (_locator self)
                          (Some (VList (first :: rest))))
         (delete "products" kwargs)) /\
  (kwargs !! "products" = Some (VList []) ->
   MyUpdateRequest_update self kwargs =
     UpdateRequest_update
       (mkUpdateRequest (_instance self) (_values self) (_locator self)
                        (Some (VList [])))
       kwargs /\
   (exists key,
      MyUpdateRequest_update self kwargs = Raise (KeyError key) /\
      is_column key = false /\ is_Some (kwargs !! key)) /\
   (only_columns (delete "products" kwargs) = true ->
    MyUpdateRequest_update self kwargs = Raise (KeyError "products"))).
Proof.
  split; [intros first rest; apply MyUpdateRequest_update_list|].
  intros Hps.
  split; [now apply MyUpdateRequest_update_falsy|].
  destruct (MyUpdateRequest_update_falsy_raises self kwargs (VList []) Hps
              eq_refl) as (key & Hkey & Hraise).
  split.
  - exists key. split; [exact Hraise|].
    now apply first_non_column_Some.
  - intros Hcols. rewrite Hraise. do 2 f_equal.
    rewrite (first_non_column_products kwargs (VList []) Hps Hcols) in Hkey.
    congruence.
Qed.

(** C1. Neither half of the claim is what the code does. An update that
    omits [products] (its fields columns, no new id, the id of the
    invoice a 32-bit integer), applied, deletes every join row of the
    invoice and then raises [TypeError] on the iteration over [None]:
    nothing is inserted and the column update is not issued. An update
    whose [products] is the empty list raises [KeyError] in [update]:
    nothing is applied, and the join rows of the invoice stay. *)
Theorem Invoice_update_products_omitted_or_empty (inst : Invoice)
    (kwargs : gmap string value) (w : World) :
  (kwargs !! "products" = None ->
   kwargs !! "id" = None ->
   only_columns kwargs = true ->
   is_int32 (invoice_id inst) = true ->
   exists w',
     Invoice_update_apply inst kwargs w =
       (Raise (TypeError "'NoneType' object is not iterable"), w') /\
     productsxinvoices (db w') =
       other_join_rows (invoice_id inst) (productsxinvoices (db w)) /\
     List.filter (fun r => refers (pxi_invoice_id r) (invoice_id inst))
                 (productsxinvoices (db w')) = [] /\
     invoices (db w') = invoices (db w) /\
     trace w' = trace w ++ [DeleteJoinRows (invoice_id inst)]) /\
  (kwargs !! "products" = Some (VList []) ->
   exists key,
     is_column key = false /\
     Invoice_update inst kwargs = Raise (KeyError key) /\
     Invoice_update_apply inst kwargs w = (Raise (KeyError key), w)).
Proof.
  split.
  - intros Hps Hid Hcols Hrange.
    exists (after_delete (invoice_id inst) w).
    destruct (ProductxInvoice_delete_ok (invoice_id inst) w Hrange)
      as (_ & Hdb & Htrace).
    split.
    { unfold Invoice_update_apply, Invoice_update.
      rewrite MyUpdateRequest_update_omitted by assumption.
      rewrite UpdateRequest_update_ok by assumption.
      cbn [_instance _values _locator self_products invoice_id
           invoice_values invoice_products].
      rewrite (updated_id_same _ _ Hid).
      now apply MyUpdateRequest_apply_none. }
    rewrite Hdb, Htrace. cbn [set_productsxinvoices productsxinvoices
                              invoices].
    split; [reflexivity|]. split; [apply filter_refers_none|].
    split; reflexivity.
  - intros Hps.
    destruct (MyUpdateRequest_update_falsy_raises
                (mkUpdateRequest inst ∅ (invoice_id inst) None) kwargs
                (VList []) Hps eq_refl) as (key & Hkey & Hraise).
    exists key. split; [now apply first_non_column_Some in Hkey|].
    split; [exact Hraise|].
    unfold Invoice_update_apply, Invoice_update. now rewrite Hraise.
Qed.

(** X11. Whatever the request holds and however [apply] ends, it touches
    the join rows of one invoice and the row the request was made for:
    the join rows of every other invoice are as before; every invoice
    row with another id than the one the request locates stays in its
    place; no invoice row is added or removed; and the users, tokens,
    wallets, stores and products are as they were. *)
Theorem MyUpdateRequest_apply_frame (self : UpdateRequest) (w : World) :
  other_join_rows (invoice_id (_instance self))
    (productsxinvoices (db (snd (MyUpdateRequest_apply self w)))) =
  other_join_rows (invoice_id (_instance self)) (productsxinvoices (db w)) /\
  (forall n r,
     nth_error (invoices (db w)) n = Some r ->
     row_id r <> _locator self ->
     nth_error (invoices (db (snd (MyUpdateRequest_apply self w)))) n =
       Some r) /\
  length (invoices (db (snd (MyUpdateRequest_apply self w)))) =
  length (invoices (db w)) /\
  users (db (snd (MyUpdateRequest_apply self w))) = users (db w) /\
  tokens (db (snd (MyUpdateRequest_apply self w))) = tokens (db w) /\
  wallets (db (snd (MyUpdateRequest_apply self w))) = wallets (db w) /\
  stores (db (snd (MyUpdateRequest_apply self w))) = stores (db w) /\
  products (db (snd (MyUpdateRequest_apply self w))) = products (db w).
Proof.
  destruct (MyUpdateRequest_apply_db self w)
    as (Hjoin & Husers & Htokens & Hwallets & Hstores & Hproducts
        & Hlength & Hrows & _).
  repeat split; assumption.
Qed.

(** What an applied update without a new id leaves for the next one. *)
Lemma Invoice_update_apply_db (inst : Invoice) (fields : gmap string value)
    (w : World) :
  fields !! "id" = None ->
  (is_int32 (invoice_id inst) = false ->
   snd (Invoice_update_apply inst fields w) = w) /\
  other_join_rows (invoice_id inst)
    (productsxinvoices (db (snd (Invoice_update_apply inst fields w)))) =
  other_join_rows (invoice_id inst) (productsxinvoices (db w)) /\
  products (db (snd (Invoice_update_apply inst fields w))) =
    products (db w) /\
  map row_id (invoices (db (snd (Invoice_update_apply inst fields w)))) =
    map row_id (invoices (db w)).
Proof.
  intros Hid. unfold Invoice_update_apply.
  destruct (Invoice_update inst fields) as [request|e] eqn:Hrequest;
    [|now repeat split].
  destruct (MyUpdateRequest_update_ok_inv _ _ _ Hrequest)
    as (_ & _ & Hinst & Hvalues & _).
  cbn [_instance invoice_id _values] in Hinst, Hvalues.
  unfold updated_id in Hinst. rewrite Hid in Hinst.
  destruct (MyUpdateRequest_apply_db request w)
    as (Hjoin & _ & _ & _ & _ & Hproducts & _ & _ & Hids).
  rewrite Hinst in Hjoin.
  split.
  { intros Hrange. apply (f_equal snd
      (MyUpdateRequest_apply_out_of_range request w
         (eq_trans (f_equal is_int32 Hinst) Hrange))). }
  split; [exact Hjoin|]. split; [exact Hproducts|].
  apply Hids, Hvalues; [exact Hid|reflexivity].
Qed.

(** X12. Updates of the product list replace, they do not add up: after
    any update of an invoice that gives it no new id, an update with a
    non-empty product list and columns for its other fields leaves the
    join table as it would have without the earlier update. In
    particular repeating an update changes nothing. *)
Theorem MyUpdateRequest_apply_last_list_wins (inst : Invoice)
    (fields1 fields2 : gmap string value) (first : Z) (rest : list Z)
    (w : World) :
  fields1 !! "id" = None ->
  fields2 !! "id" = None ->
  fields2 !! "products" = Some (VList (first :: rest)) ->
  only_columns (delete "products" fields2) = true ->
  productsxinvoices
    (db (snd (Invoice_update_apply inst fields2
                (snd (Invoice_update_apply inst fields1 w))))) =
  productsxinvoices (db (snd (Invoice_update_apply inst fields2 w))).
Proof.
  intros Hid1 Hid2 Hps Hcols.
  destruct (Invoice_update_apply_db inst fields1 w Hid1)
    as (Hout & Hjoin & Hproducts & Hids).
  destruct (is_int32 (invoice_id inst)) eqn:Hrange;
    [|now rewrite Hout].
  unfold Invoice_update_apply at 1 3.
  rewrite (Invoice_update_list inst fields2 first rest Hps Hid2 Hcols).
  rewrite !(MyUpdateRequest_apply_join_table _ (first :: rest))
    by (reflexivity || exact Hrange).
  cbn [_instance invoice_id].
  rewrite Hjoin. do 2 f_equal.
  apply accepted_products_frame; [exact Hproducts|].
  now apply invoice_exists_ids.
Qed.

(** X13. In a chain of [update] calls on one request, none of them with
    a new id, only the last call decides the product list: if it gives a
    list of existing products, the join rows of the invoice, which has a
    row, become that list, whatever an earlier call gave; if it omits
    [products], an earlier list is forgotten and [apply] deletes the join
    rows of the invoice and raises [TypeError]. *)
Theorem MyUpdateRequest_update_chain (self request1 request2 : UpdateRequest)
    (fields1 fields2 : gmap string value) (w : World) :
  MyUpdateRequest_update self fields1 = Ok request1 ->
  MyUpdateRequest_update request1 fields2 = Ok request2 ->
  fields1 !! "id" = None ->
  fields2 !! "id" = None ->
  is_int32 (invoice_id (_instance self)) = true ->
  (forall ids,
     fields2 !! "products" = Some (VList ids) ->
     all_products ids (db w) = true ->
     invoice_exists (invoice_id (_instance self)) (db w) = true ->
     productsxinvoices (db (snd (MyUpdateRequest_apply request2 w))) =
     other_join_rows (invoice_id (_instance self))
       (productsxinvoices (db w)) ++
     join_rows (invoice_id (_instance self)) ids) /\
  (fields2 !! "products" = None ->
   MyUpdateRequest_apply request2 w =
     (Raise (TypeError "'NoneType' object is not iterable"),
      after_delete (invoice_id (_instance self)) w)).
Proof.
  intros Hrequest1 Hrequest2 Hid1 Hid2 Hrange.
  destruct (MyUpdateRequest_update_ok_inv _ _ _ Hrequest1)
    as (_ & _ & Hinst1 & _).
  destruct (MyUpdateRequest_update_ok_inv _ _ _ Hrequest2)
    as (Hps2 & _ & Hinst2 & _).
  unfold updated_id in Hinst1, Hinst2. rewrite Hid1 in Hinst1.
  rewrite Hid2, Hinst1 in Hinst2.
  split.
  - intros ids Hps Hall Hexists. rewrite Hps in Hps2. cbn in Hps2.
    rewrite (MyUpdateRequest_apply_join_table request2 ids w Hps2)
      by now rewrite Hinst2.
    rewrite Hinst2. now rewrite accepted_products_all.
  - intros Hps. rewrite Hps in Hps2. cbn in Hps2.
    rewrite <- Hinst2. apply MyUpdateRequest_apply_none; [exact Hps2|].
    now rewrite Hinst2.
Qed.

(** X14. An invoice that [Invoice.create] returned can be given its
    products by an update with a non-empty list of existing products and
    other fields that the database takes as columns of the row: [apply]
    on the returned invoice finds its row and returns, and the join rows
    of the new invoice are then exactly one per id of the list, while
    those of every other invoice are as they were before the creation. *)
Theorem Invoice_create_then_update (env : Env) (kwargs : gmap string value)
    (w w1 : World) (invoice : Invoice) (xpub : option string)
    (fields : gmap string value) (first : Z) (rest : list Z) :
  Invoice_create env kwargs w = (Ok (invoice, xpub), w1) ->
  fields !! "products" = Some (VList (first :: rest)) ->
  fields !! "id" = None ->
  all_products (first :: rest) (db w1) = true ->
  update_error (invoice_id invoice) (delete "products" fields) (db w1)
    = None ->
  exists (req : UpdateRequest) (w2 : World),
    Invoice_update_apply invoice fields w1 = (Ok req, w2) /\
    List.filter (fun r => refers (pxi_invoice_id r) (invoice_id invoice))
                (productsxinvoices (db w2)) =
      join_rows (invoice_id invoice) (first :: rest) /\
    other_join_rows (invoice_id invoice) (productsxinvoices (db w2)) =
      other_join_rows (invoice_id invoice) (productsxinvoices (db w)) /\
    invoice_products (_instance req) = Some (VList (first :: rest)).
Proof.
  intros Hcreate Hps Hid Hall Hupdate.
  destruct (Invoice_update_apply_list invoice fields w1 first rest
              Hps Hid Hall Hupdate)
    as (request & w2 & _ & _ & _ & Hrun & _ & Hjoin & Hown & _).
  exists (with_instance_products request (VList (first :: rest))), w2.
  split; [exact Hrun|]. split; [exact Hown|]. split; [|reflexivity].
  rewrite Hjoin, other_join_rows_app, other_join_rows_idem.
  rewrite (other_join_rows_own _ _ (join_rows_own _ _)), app_nil_r.
  destruct (Invoice_create_ok_inv env kwargs w w1 invoice xpub Hcreate)
    as (first0 & rest0 & product & store & wallet & amount & data_got
        & address & uri & _ & _ & _ & _ & _ & _ & _ & _ & _ & Hins
        & _ & ->).
  destruct (Invoice_insert_accepted _
              (after_request xpub amount (product_description product) w)
              Hins) as (_ & -> & _).
  reflexivity.
Qed.

(** X15. An update whose [products] entry is falsy (the empty list,
    [None], zero, the empty string) is refused by [update]: the entry
    stays among the fields, the generic column update raises [KeyError]
    for a field that is no column, which is [products] when the other
    fields are columns, and nothing is issued: the world is as it was. *)
Theorem Invoice_update_falsy_products (inst : Invoice)
    (kwargs : gmap string value) (ps : value) (w : World) :
  kwargs !! "products" = Some ps ->
  truthy ps = false ->
  exists key,
    is_column key = false /\ is_Some (kwargs !! key) /\
    Invoice_update inst kwargs = Raise (KeyError key) /\
    Invoice_update_apply inst kwargs w = (Raise (KeyError key), w) /\
    (only_columns (delete "products" kwargs) = true -> key = "products").
Proof.
  intros Hps Hfalsy.
  destruct (MyUpdateRequest_update_falsy_raises
              (mkUpdateRequest inst ∅ (invoice_id inst) None) kwargs
              ps Hps Hfalsy) as (key & Hkey & Hraise).
  exists key.
  destruct (first_non_column_Some kwargs key Hkey) as [Hcol Hsome].
  split; [exact Hcol|]. split; [exact Hsome|]. split; [exact Hraise|].
  split.
  - unfold Invoice_update_apply, Invoice_update. now rewrite Hraise.
  - intros Hcols.
    rewrite (first_non_column_products kwargs ps Hps Hcols) in Hkey.
    congruence.
Qed.

(** ** The update request on the shop *)


(** ** Invoice creation on the shop *)

(** C4 fails on the shop as the claim has it: the chain of product 1 is
    valid and the wallet service answers, but the order gives no date,
    the column is NOT NULL, and the database refuses the row. The call
    raises and no invoice row is persisted. *)
Lemma Invoice_create_row_refused :
  order_without_date [1; 99] !! "products" = Some (VList [1; 99]) /\
  products shop_db !! 1 = Some shop_tea /\
  deref (stores shop_db) (product_store_id shop_tea) = Some shop_store /\
  deref (wallets shop_db) (store_wallet_id shop_store) = Some shop_wallet /\
  fst (Invoice_create shop_env (order_without_date [1; 99]) shop_world) =
    Raise (NotNullViolationError "date") /\
  invoices (db (snd (Invoice_create shop_env (order_without_date [1; 99])
                       shop_world))) = invoices shop_db /\
  trace (snd (Invoice_create shop_env (order_without_date [1; 99])
                shop_world)) =
    [RpcAddRequest (Some "xpub661MyMwAqRbcF") (VNum 5) (Some "green tea")].
Proof. repeat split; vm_compute; reflexivity. Qed.

(** C6 fails on the shop as the claim has it: the first product id of
    the order names no product, but it is beyond 32 bits, and the lookup
    is refused with [DataError] before any query is sent; the call does
    not raise the 422 of a product that does not exist. *)
Lemma Invoice_create_product_id_out_of_range :
  order [2147483648] !! "products" = Some (VList [2147483648]) /\
  products shop_db !! 2147483648 = None /\
  Invoice_create shop_env (order [2147483648]) shop_world =
    (Raise (DataError "invalid input for query argument"), shop_world).
Proof. repeat split; vm_compute; reflexivity. Qed.

(** ** Deleting on the shop *)

(** C3 fails on the shop: after product 1 is deleted its join row is still
    there, with a NULL product id; after invoice 1 is deleted its two join
    rows are still there, with a NULL invoice id. *)
Lemma ProductxInvoice_rows_survive_delete :
  productsxinvoices (Product_delete 1 shop_db) =
    [mkProductxInvoice None (Some 1);
     mkProductxInvoice (Some 2) (Some 1);
     mkProductxInvoice (Some 3) (Some 2)] /\
  productsxinvoices (Invoice_delete 1 shop_db) =
    [mkProductxInvoice (Some 1) None;
     mkProductxInvoice (Some 2) None;
     mkProductxInvoice (Some 3) (Some 2)] /\
  products (Product_delete 1 shop_db) !! 1 = None /\
  invoices (Invoice_delete 1 shop_db) =
    [mkInvoiceRow 2 {[ "amount" := VNum 400000 ]}].
Proof. repeat split; vm_compute; reflexivity. Qed.

(** ** The theorems at work on the shop *)

Lemma Invoice_update_products_omitted_or_empty_witness :
  (exists w',
     Invoice_update_apply shop_invoice paid shop_world =
       (Raise (TypeError "'NoneType' object is not iterable"), w') /\
     productsxinvoices (db w') = [mkProductxInvoice (Some 3) (Some 2)] /\
     invoices (db w') = invoices shop_db /\
     trace w' = [DeleteJoinRows 1]) /\
  (exists key,
     Invoice_update shop_invoice paid_no_products = Raise (KeyError key) /\
     Invoice_update_apply shop_invoice paid_no_products shop_world =
       (Raise (KeyError key), shop_world)).
Proof.
  destruct (Invoice_update_products_omitted_or_empty shop_invoice paid
              shop_world) as [Homitted _].
  destruct (Invoice_update_products_omitted_or_empty shop_invoice
              paid_no_products shop_world) as [_ Hempty].
  split.
  - destruct (Homitted eq_refl eq_refl eq_refl eq_refl)
      as (w' & Hrun & Hrows & _ & Hinvoices & Htrace).
    exists w'. split; [exact Hrun|].
    split; [rewrite Hrows; vm_compute; reflexivity|].
    split; [exact Hinvoices|exact Htrace].
  - destruct (Hempty eq_refl) as (key & _ & Hupdate & Hrun).
    exists key. split; assumption.
Defined.

Lemma MyUpdateRequest_update_empty_list_raises_witness :
  MyUpdateRequest_update (mkUpdateRequest shop_invoice ∅ 1 None)
    paid_no_products = Raise (KeyError "products") /\
  MyUpdateRequest_update (mkUpdateRequest shop_invoice ∅ 1 None)
    paid_pot_and_tin =
    UpdateRequest_update
      (mkUpdateRequest shop_invoice ∅ 1 (Some (VList [3; 4])))
      (delete "products" paid_pot_and_tin).
Proof.
  split.
  - apply (proj2 (MyUpdateRequest_update_empty_list_raises
                    (mkUpdateRequest shop_invoice ∅ 1 None)
                    paid_no_products) eq_refl).
    vm_compute. reflexivity.
  - apply (proj1 (MyUpdateRequest_update_empty_list_raises
                    (mkUpdateRequest shop_invoice ∅ 1 None)
                    paid_pot_and_tin) 3 [4]).
    reflexivity.
Defined.

Lemma Invoice_create_valid_chain_witness :
  exists (invoice : Invoice) (w' : World),
    Invoice_create shop_env (order [1; 99]) shop_world =
      (Ok (invoice, Some "xpub661MyMwAqRbcF"), w') /\
    invoices (db w') =
      invoices shop_db ++
      [mkInvoiceRow (invoice_id invoice) (invoice_values invoice)] /\
    invoice_values invoice !! "bitcoin_address" = Some (VStr "bc1qtea") /\
    invoice_values invoice !! "bitcoin_url" =
      Some (VStr "bitcoin:bc1qtea?amount=5").
Proof.
  assert (Invoice_insert_error
            (invoice_columns (order [1; 99]) (VStr "bc1qtea")
               (VStr "bitcoin:bc1qtea?amount=5")) (db shop_world) = None)
    as Hinsert by (vm_compute; reflexivity).
  destruct (Invoice_create_valid_chain shop_env (order [1; 99]) shop_world
              1 [99] shop_tea shop_store shop_wallet (VNum 5) shop_response
              (VStr "bc1qtea") (VStr "bitcoin:bc1qtea?amount=5")
              eq_refl eq_refl eq_refl eq_refl eq_refl eq_refl eq_refl
              eq_refl Hinsert)
    as (invoice & w' & Hrun & Hrows & Haddress & Huri & _).
  exists invoice, w'. repeat split; assumption.
Defined.

Lemma Invoice_create_rpc_failure_witness :
  exists w' : World,
    Invoice_create shop_env_down (order [1]) shop_world =
      (Raise connection_refused, w') /\
    db w' = shop_db /\
    trace w' = [RpcAddRequest (Some "xpub661MyMwAqRbcF") (VNum 5)
                              (Some "green tea")].
Proof.
  destruct (Invoice_create_rpc_failure shop_env_down (order [1]) shop_world
              1 [] shop_tea shop_store shop_wallet (VNum 5)
              connection_refused
              eq_refl eq_refl eq_refl eq_refl eq_refl eq_refl)
    as [(w' & Hrun & Hdb & Htrace) _].
  exists w'. repeat split; assumption.
Defined.

Lemma Invoice_create_validation_errors_witness :
  Invoice_create shop_env (order []) shop_world =
    (Raise (HTTPException 422 "Products list empty"), shop_world) /\
  Invoice_create shop_env (order [99; 1]) shop_world =
    (Raise (HTTPException 422 "Product 99 doesn't exist!"), shop_world) /\
  Invoice_create shop_env (order [2]) shop_world =
    (Raise (HTTPException 422 "Store None doesn't exist!"), shop_world) /\
  Invoice_create shop_env (order [4]) shop_world =
    (Raise (HTTPException 422 "Store 9 doesn't exist!"), shop_world) /\
  Invoice_create shop_env (order [3]) shop_world =
    (Raise (HTTPException 422 "No wallet linked"), shop_world).
Proof.
  split.
  { apply (proj1 (Invoice_create_validation_errors shop_env (order [])
                    shop_world)).
    reflexivity. }
  split.
  { apply (proj1 (proj2 (Invoice_create_validation_errors shop_env
                           (order [99; 1]) shop_world)) 99 [1]);
      reflexivity. }
  split.
  { apply (proj1 (proj2 (proj2 (Invoice_create_validation_errors shop_env
                                  (order [2]) shop_world)))
             2 [] shop_cup); reflexivity. }
  split.
  { apply (proj1 (proj2 (proj2 (Invoice_create_validation_errors shop_env
                                  (order [4]) shop_world)))
             4 [] shop_tin); reflexivity. }
  apply (proj2 (proj2 (proj2 (Invoice_create_validation_errors shop_env
                                (order [3]) shop_world)))
           3 [] shop_pot shop_store_no_wallet); reflexivity.
Defined.


Lemma Invoice_create_no_join_rows_witness :
  Invoice_create shop_env (order [1; 2]) shop_world =
    (Ok (mkInvoice 3
           (invoice_columns (order [1; 2]) (VStr "bc1qtea")
              (VStr "bitcoin:bc1qtea?amount=5")) None,
         Some "xpub661MyMwAqRbcF"),
     snd (Invoice_create shop_env (order [1; 2]) shop_world)) /\
  productsxinvoices
    (db (snd (Invoice_create shop_env (order [1; 2]) shop_world))) =
    productsxinvoices shop_db.
Proof.
  assert (Invoice_create shop_env (order [1; 2]) shop_world =
          (Ok (mkInvoice 3
                 (invoice_columns (order [1; 2]) (VStr "bc1qtea")
                    (VStr "bitcoin:bc1qtea?amount=5")) None,
               Some "xpub661MyMwAqRbcF"),
           snd (Invoice_create shop_env (order [1; 2]) shop_world)))
    as Hrun by (vm_compute; reflexivity).
  split; [exact Hrun|].
  exact (proj1 (Invoice_create_no_join_rows shop_env (order [1; 2])
                  shop_world _ _ _ Hrun)).
Defined.

(** ** The further properties at work on the shop *)

Lemma Invoice_create_missing_arguments_witness :
  Invoice_create shop_env paid shop_world =
    (Raise (KeyError "products"), shop_world) /\
  Invoice_create shop_env {[ "products" := VNone ]} shop_world =
    (Raise (HTTPException 422 "Products list empty"), shop_world) /\
  Invoice_create shop_env {[ "products" := VList [1] ]} shop_world =
    (Raise (KeyError "amount"), shop_world).
Proof.
  split.
  { apply (proj1 (Invoice_create_missing_arguments shop_env paid
                    shop_world)).
    reflexivity. }
  split.
  { apply (proj1 (proj2 (Invoice_create_missing_arguments shop_env
                           {[ "products" := VNone ]} shop_world)) VNone);
      reflexivity. }
  apply (proj2 (proj2 (Invoice_create_missing_arguments shop_env
                         {[ "products" := VList [1] ]} shop_world))
           1 [] shop_tea shop_store shop_wallet); reflexivity.
Defined.

Lemma Invoice_create_incomplete_answer_witness :
  exists (key : string) (w' : World),
    Invoice_create shop_env_no_address (order [1]) shop_world =
      (Raise (KeyError key), w') /\
    key = "address" /\
    db w' = shop_db.
Proof.
  destruct (Invoice_create_incomplete_answer shop_env_no_address (order [1])
              shop_world 1 [] shop_tea shop_store shop_wallet (VNum 5)
              {[ "URI" := VStr "bitcoin:bc1qtea?amount=5" ]}
              eq_refl eq_refl eq_refl eq_refl eq_refl eq_refl
              (or_introl eq_refl))
    as (key & w' & Hrun & Hkey & Hdb & _).
  exists key, w'. repeat split; assumption.
Defined.

Lemma Invoice_create_returns_only_for_valid_chain_witness :
  exists first rest product store wallet amount data_got,
    order [1; 2] !! "products" = Some (VList (first :: rest)) /\
    products shop_db !! first = Some product /\
    deref (stores shop_db) (product_store_id product) = Some store /\
    deref (wallets shop_db) (store_wallet_id store) = Some wallet /\
    order [1; 2] !! "amount" = Some amount /\
    Some "xpub661MyMwAqRbcF" = wallet_xpub wallet /\
    addrequest shop_env (settings shop_env) (Some "xpub661MyMwAqRbcF")
      amount (product_description product) = Ok data_got.
Proof.
  assert (Invoice_create shop_env (order [1; 2]) shop_world =
          (Ok (mkInvoice 3
                 (invoice_columns (order [1; 2]) (VStr "bc1qtea")
                    (VStr "bitcoin:bc1qtea?amount=5")) None,
               Some "xpub661MyMwAqRbcF"),
           snd (Invoice_create shop_env (order [1; 2]) shop_world)))
    as Hrun by (vm_compute; reflexivity).
  destruct (Invoice_create_returns_only_for_valid_chain shop_env
              (order [1; 2]) shop_world _ _ _ Hrun)
    as (first & rest & product & store & wallet & amount & data_got
        & H1 & H2 & H3 & H4 & H5 & H6 & H7 & _).
  exists first, rest, product, store, wallet, amount, data_got.
  repeat split; assumption.
Defined.

Lemma Invoice_create_keeps_other_fields_witness :
  invoice_columns (order [1; 2]) (VStr "bc1qtea")
    (VStr "bitcoin:bc1qtea?amount=5") !! "status" =
  order [1; 2] !! "status".
Proof.
  assert (Invoice_create shop_env (order [1; 2]) shop_world =
          (Ok (mkInvoice 3
                 (invoice_columns (order [1; 2]) (VStr "bc1qtea")
                    (VStr "bitcoin:bc1qtea?amount=5")) None,
               Some "xpub661MyMwAqRbcF"),
           snd (Invoice_create shop_env (order [1; 2]) shop_world)))
    as Hrun by (vm_compute; reflexivity).
  apply (proj1 (Invoice_create_keeps_other_fields shop_env (order [1; 2])
                  shop_world _ _ _ Hrun) "status"); discriminate.
Defined.

Lemma Invoice_create_after_chain_delete_witness :
  Invoice_create shop_env (order [1])
    (set_db (Product_delete 1 shop_db) shop_world) =
    (Raise (HTTPException 422 "Product 1 doesn't exist!"),
     set_db (Product_delete 1 shop_db) shop_world) /\
  Invoice_create shop_env (order [1])
    (set_db (Store_delete 7 shop_db) shop_world) =
    (Raise (HTTPException 422 "Store None doesn't exist!"),
     set_db (Store_delete 7 shop_db) shop_world) /\
  Invoice_create shop_env (order [1])
    (set_db (Wallet_delete 3 shop_db) shop_world) =
    (Raise (HTTPException 422 "No wallet linked"),
     set_db (Wallet_delete 3 shop_db) shop_world).
Proof.
  destruct (Invoice_create_after_chain_delete shop_env (order [1])
              shop_world 1 [] eq_refl) as (Hproduct & Hstore & Hwallet).
  split; [exact (Hproduct eq_refl)|]. split.
  - exact (Hstore shop_tea 7 eq_refl eq_refl).
  - exact (Hwallet shop_tea 7 shop_store 3 eq_refl eq_refl eq_refl eq_refl).
Defined.

Lemma MyUpdateRequest_apply_last_list_wins_witness :
  productsxinvoices
    (db (snd (Invoice_update_apply shop_invoice paid_pot_and_tin
                (snd (Invoice_update_apply shop_invoice paid
                        shop_world))))) =
  productsxinvoices
    (db (snd (Invoice_update_apply shop_invoice paid_pot_and_tin
                shop_world))).
Proof.
  assert (only_columns (delete "products" paid_pot_and_tin) = true)
    as Hcols by (vm_compute; reflexivity).
  exact (MyUpdateRequest_apply_last_list_wins shop_invoice paid
           paid_pot_and_tin 3 [4] shop_world eq_refl eq_refl eq_refl
           Hcols).
Defined.

Lemma MyUpdateRequest_update_chain_witness :
  exists request1 request2,
    MyUpdateRequest_update (mkUpdateRequest shop_invoice ∅ 1 None) paid =
      Ok request1 /\
    MyUpdateRequest_update request1 paid_pot_and_tin = Ok request2 /\
    productsxinvoices (db (snd (MyUpdateRequest_apply request2 shop_world)))
      = [mkProductxInvoice (Some 3) (Some 2);
         mkProductxInvoice (Some 3) (Some 1);
         mkProductxInvoice (Some 4) (Some 1)].
Proof.
  set (request1 :=
         mkUpdateRequest (mkInvoice 1 (paid ∪ shop_invoice_values) None)
                         (paid ∪ ∅) 1 (Some VNone)).
  set (request2 :=
         mkUpdateRequest
           (mkInvoice 1
              (delete "products" paid_pot_and_tin
                 ∪ (paid ∪ shop_invoice_values)) None)
           (delete "products" paid_pot_and_tin ∪ (paid ∪ ∅)) 1
           (Some (VList [3; 4]))).
  assert (MyUpdateRequest_update (mkUpdateRequest shop_invoice ∅ 1 None)
            paid = Ok request1) as Hrequest1 by (vm_compute; reflexivity).
  assert (MyUpdateRequest_update request1 paid_pot_and_tin = Ok request2)
    as Hrequest2 by (vm_compute; reflexivity).
  exists request1, request2.
  split; [exact Hrequest1|]. split; [exact Hrequest2|].
  rewrite (proj1 (MyUpdateRequest_update_chain
                    (mkUpdateRequest shop_invoice ∅ 1 None)
                    request1 request2 paid paid_pot_and_tin shop_world
                    Hrequest1 Hrequest2 eq_refl eq_refl eq_refl)
             [3; 4] eq_refl eq_refl eq_refl).
  vm_compute. reflexivity.
Defined.

Lemma Invoice_create_then_update_witness :
  exists (req : UpdateRequest) (w2 : World),
    Invoice_update_apply
      (mkInvoice 3
         (invoice_columns (order [1; 2]) (VStr "bc1qtea")
            (VStr "bitcoin:bc1qtea?amount=5")) None)
      paid_pot_and_tin
      (snd (Invoice_create shop_env (order [1; 2]) shop_world)) =
      (Ok req, w2) /\
    List.filter (fun r => refers (pxi_invoice_id r) 3)
                (productsxinvoices (db w2)) =
      join_rows 3 [3; 4].
Proof.
  assert (Invoice_create shop_env (order [1; 2]) shop_world =
          (Ok (mkInvoice 3
                 (invoice_columns (order [1; 2]) (VStr "bc1qtea")
                    (VStr "bitcoin:bc1qtea?amount=5")) None,
               Some "xpub661MyMwAqRbcF"),
           snd (Invoice_create shop_env (order [1; 2]) shop_world)))
    as Hrun by (vm_compute; reflexivity).
  assert (all_products [3; 4]
            (db (snd (Invoice_create shop_env (order [1; 2]) shop_world)))
          = true) as Hall by (vm_compute; reflexivity).
  assert (update_error 3 (delete "products" paid_pot_and_tin)
            (db (snd (Invoice_create shop_env (order [1; 2]) shop_world)))
          = None) as Hupdate by (vm_compute; reflexivity).
  destruct (Invoice_create_then_update shop_env (order [1; 2]) shop_world
              _ _ _ paid_pot_and_tin 3 [4] Hrun eq_refl eq_refl Hall
              Hupdate)
    as (req & w2 & Happly & Hrows & _).
  exists req, w2. split; assumption.
Defined.

Lemma Invoice_update_falsy_products_witness :
  exists key,
    Invoice_update shop_invoice paid_no_products = Raise (KeyError key) /\
    Invoice_update_apply shop_invoice paid_no_products shop_world =
      (Raise (KeyError key), shop_world) /\
    key = "products".
Proof.
  destruct (Invoice_update_falsy_products shop_invoice paid_no_products
              (VList []) shop_world eq_refl eq_refl)
    as (key & _ & _ & Hupdate & Hrun & Hkey).
  exists key. split; [exact Hupdate|]. split; [exact Hrun|].
  apply Hkey. vm_compute. reflexivity.
Defined.
